(** * Bangladesh Bank historic rate fetcher: shallow embedding and properties

    Embedding of [bb_bank_historic_rata_data_fetch.py].  The script talks to
    three things outside itself: the local file system (the parquet cache and
    the combined output), the remote web site, and the UTC clock.  They are
    gathered in a [World] that every operation threads explicitly; Python
    exceptions are the [Raise] outcome of a small state-and-error monad. *)

From stdpp Require Import gmap strings list pretty sorting.
From Stdlib Require Import ZArith Lia Ascii.

Local Open Scope string_scope.
Local Open Scope list_scope.
Local Open Scope Z_scope.

(** ** Python values and exceptions *)

Inductive exn : Type :=
  | ValueError (msg : string)
  | IndexError (msg : string)
  | IllegalMonthError (month : Z)
  | AttributeError (msg : string)
  | ConnectionError (msg : string)
  | FileNotFoundError (path : string)
  | OSError (path : string).

Inductive result (A : Type) : Type :=
  | Ok (a : A)
  | Raise (e : exn).
Arguments Ok {A} a.
Arguments Raise {A} e.

(** A pandas DataFrame: column labels (a label is a tuple of level names, so
    that [('month_year', 'month_year')] is a label) and rows of cells. *)
Inductive cell : Type :=
  | Str (s : string)
  | Timestamp (year month day : Z)
  | NaN.

Definition label : Type := list string.

Record DataFrame : Type := mkDataFrame {
  columns : list label;
  rows : list (list cell)
}.

(** [len(df)] and [df.shape]. *)
Definition len (df : DataFrame) : Z := Z.of_nat (length (rows df)).

Definition shape (data_table : option DataFrame) : result (Z * Z) :=
  match data_table with
  | Some df => Ok (len df, Z.of_nat (length (columns df)))
  | None => Raise (AttributeError "'NoneType' object has no attribute 'shape'")
  end.

Fixpoint index_of (l : label) (cs : list label) : option nat :=
  match cs with
  | [] => None
  | c :: cs' => if decide (c = l) then Some 0%nat else S <$> index_of l cs'
  end.

(** [df[lbl] = v] with a scalar [v]: overwrite the column when it exists,
    append it otherwise. *)
Definition set_column (lbl : label) (v : cell) (df : DataFrame) : DataFrame :=
  match index_of lbl (columns df) with
  | Some i => mkDataFrame (columns df) (map (fun r => <[i := v]> r) (rows df))
  | None => mkDataFrame (columns df ++ [lbl]) (map (fun r => r ++ [v]) (rows df))
  end.

Definition reindex (cols : list label) (df : DataFrame) (r : list cell) : list cell :=
  map (fun c => match index_of c (columns df) with
                | Some i => default NaN (r !! i)
                | None => NaN
                end) cols.

Definition union_columns (tables : list DataFrame) : list label :=
  fold_left (fun acc df =>
               fold_left (fun acc' c => if decide (c ∈ acc') then acc' else acc' ++ [c])
                         (columns df) acc)
            tables [].

(** [pd.concat(tables, ignore_index=True)]: the rows of the tables stacked in
    list order over the union of their columns; pandas refuses an empty list. *)
Definition pd_concat (tables : list DataFrame) : result DataFrame :=
  match tables with
  | [] => Raise (ValueError "No objects to concatenate")
  | _ :: _ =>
      let cols := union_columns tables in
      Ok (mkDataFrame cols (concat (map (fun df => map (reindex cols df) (rows df)) tables)))
  end.

(** [range(a, b)] over Python integers. *)
Definition py_range (a b : Z) : list Z :=
  map (fun i => a + Z.of_nat i) (seq 0 (Z.to_nat (b - a))).

(** [l[i]] for a Python list, negative indices counting from the end.  An
    index that does not fit the machine index type (64 bits) is refused before
    the list is looked at. *)
Definition py_index {A} (l : list A) (i : Z) : result A :=
  if (i <? - 2 ^ 63) || (2 ^ 63 - 1 <? i)
  then Raise (IndexError "cannot fit 'int' into an index-sized integer")
  else
    let n := Z.of_nat (length l) in
    let j := if 0 <=? i then i else n + i in
    if (0 <=? j) && (j <? n)
    then match l !! Z.to_nat j with
         | Some x => Ok x
         | None => Raise (IndexError "list index out of range")
         end
    else Raise (IndexError "list index out of range").

(** [sep.join(l)]. *)
Fixpoint join (sep : string) (l : list string) : string :=
  match l with
  | [] => ""
  | [s] => s
  | s :: l' => s +:+ sep +:+ join sep l'
  end.

Definition is_lower (c : ascii) : bool :=
  (97 <=? Z.of_N (Ascii.N_of_ascii c)) && (Z.of_N (Ascii.N_of_ascii c) <=? 122).
Definition is_upper (c : ascii) : bool :=
  (65 <=? Z.of_N (Ascii.N_of_ascii c)) && (Z.of_N (Ascii.N_of_ascii c) <=? 90).
Definition to_upper (c : ascii) : ascii :=
  if is_lower c then Ascii.ascii_of_N (Ascii.N_of_ascii c - 32) else c.
Definition to_lower (c : ascii) : ascii :=
  if is_upper c then Ascii.ascii_of_N (Ascii.N_of_ascii c + 32) else c.

Fixpoint map_string (f : ascii -> ascii) (s : string) : string :=
  match s with
  | EmptyString => EmptyString
  | String c s' => String (f c) (map_string f s')
  end.

(** [s.capitalize()] on ASCII text. *)
Definition capitalize (s : string) : string :=
  match s with
  | EmptyString => EmptyString
  | String c s' => String (to_upper c) (map_string to_lower s')
  end.

(** [s.split(sep)] for a non-empty separator: [skip] counts the characters of
    a separator occurrence still to be dropped, [acc] is the current piece. *)
Fixpoint split_go (sep : string) (skip : nat) (acc : string) (s : string) : list string :=
  match s with
  | EmptyString => [acc]
  | String c s' =>
      match skip with
      | S k => split_go sep k acc s'
      | O =>
          if String.prefix sep s
          then acc :: split_go sep (String.length sep - 1) "" s'
          else split_go sep O (acc +:+ String c EmptyString) s'
      end
  end.

Definition split (s sep : string) : list string := split_go sep O "" s.

(** Character [c] occurs in string [s]. *)
Fixpoint occurs (c : ascii) (s : string) : bool :=
  match s with
  | EmptyString => false
  | String c' s' => bool_decide (c' = c) || occurs c s'
  end.

(** The directory part of a relative path: the text before its last ["/"],
    empty for a bare file name. *)
Fixpoint parent_of (path : string) : string :=
  match path with
  | EmptyString => EmptyString
  | String c rest => if occurs "/" rest then String c (parent_of rest) else EmptyString
  end.

(** ** The [calendar] module *)

Definition month_names : list string :=
  [""; "January"; "February"; "March"; "April"; "May"; "June"; "July";
   "August"; "September"; "October"; "November"; "December"].

(** [calendar.month_name[month]] *)
Definition month_name (month : Z) : result string := py_index month_names month.

Definition isleap (year : Z) : bool :=
  (year mod 4 =? 0) && (negb (year mod 100 =? 0) || (year mod 400 =? 0)).

Definition mdays : list Z := [0; 31; 28; 31; 30; 31; 30; 31; 31; 30; 31; 30; 31].

(** [calendar.monthrange(year, month)[1]]: the number of days of the month. *)
Definition monthrange_days (year month : Z) : result Z :=
  if (1 <=? month) && (month <=? 12)
  then Ok (default 0 (mdays !! Z.to_nat month)
           + (if (month =? 2) && isleap year then 1 else 0))
  else Raise (IllegalMonthError month).

(** ** The world outside the script *)

Record datetime : Type := mkDatetime {
  dt_year : Z; dt_month : Z; dt_day : Z;
  dt_hour : Z; dt_minute : Z; dt_second : Z
}.

(** A POST request: the URL and the three form fields of the payload. *)
Record Request : Type := mkRequest {
  req_url : string;
  select_month : string;
  select_year : string;
  bank_deposit_rate_submit : string
}.

Record Response : Type := mkResponse {
  status_code : Z;
  text : string
}.

(** The file system holds parquet files, each as the table [pd.read_parquet]
    yields from it, and directories; [posts] logs every request sent,
    [stdout] every printed line, [ticks] counts the reads of the clock. *)
Record World : Type := mkWorld {
  files : gmap string DataFrame;
  dirs : gset string;
  posts : list Request;
  stdout : list string;
  ticks : nat
}.

(** What the script does not control: how the site answers a request given
    the requests it has already seen (a transport failure is a [Raise]), what
    [pd.read_html] extracts from a page, what
    [pd.to_datetime(text, format='%Y-%m-%d')] makes of a text, the table that
    comes back from the parquet file written for a table, and the UTC time at
    each clock read. *)
Class Environment : Type := {
  server : list Request -> Request -> result Response;
  read_html : string -> result (list DataFrame);
  to_datetime : string -> result cell;
  parquet_image : DataFrame -> DataFrame;
  utcnow : nat -> datetime
}.

(** ** State and exception monad *)

Definition M (A : Type) : Type := World -> result A * World.

Definition ret {A} (a : A) : M A := fun w => (Ok a, w).

Definition raise {A} (e : exn) : M A := fun w => (Raise e, w).

Definition bind {A B} (m : M A) (k : A -> M B) : M B :=
  fun w => match m w with
           | (Ok a, w') => k a w'
           | (Raise e, w') => (Raise e, w')
           end.

Definition lift {A} (r : result A) : M A := fun w => (r, w).

(** [try: m except ValueError as e: h (str e)]; [calendar.IllegalMonthError]
    is a subclass of [ValueError]. *)
Definition try_except_ValueError {A} (m : M A) (h : string -> M A) : M A :=
  fun w => match m w with
           | (Raise (ValueError msg), w') => h msg w'
           | (Raise (IllegalMonthError month), w') =>
               h ("bad month number " +:+ pretty month +:+ "; must be 1-12") w'
           | other => other
           end.

Notation "'let*' x ':=' m 'in' k" := (bind m (fun x => k))
  (at level 10, x pattern, m at level 100, k at level 200).
Notation "m ';;' k" := (bind m (fun _ => k))
  (at level 100, k at level 200, right associativity).

Definition print (line : string) : M unit :=
  fun w => (Ok tt, mkWorld (files w) (dirs w) (posts w) (stdout w ++ [line]) (ticks w)).

(** [os.path.exists], [os.makedirs], [os.path.join] *)
Definition path_exists (path : string) : M bool :=
  fun w => (Ok (bool_decide (is_Some (files w !! path)) || bool_decide (path ∈ dirs w)), w).

Definition makedirs (path : string) : M unit :=
  fun w => (Ok tt, mkWorld (files w) ({[path]} ∪ dirs w) (posts w) (stdout w) (ticks w)).

Definition path_join (dir name : string) : string := dir +:+ "/" +:+ name.

(** [pd.read_parquet] and [DataFrame.to_parquet] *)
Definition read_parquet (path : string) : M DataFrame :=
  fun w => match files w !! path with
           | Some df => (Ok df, w)
           | None => (Raise (FileNotFoundError path), w)
           end.

(** Writing needs the directory of the path to exist (a bare file name lies
    in the working directory) and the path not to be a directory: otherwise
    the call raises [OSError], or a subclass of it, and writes nothing. *)
Definition to_parquet `{Environment} (df : DataFrame) (path : string) : M unit :=
  fun w =>
    if bool_decide (path ∈ dirs w) then (Raise (OSError path), w)
    else if bool_decide (parent_of path = "") || bool_decide (parent_of path ∈ dirs w)
    then (Ok tt, mkWorld (<[path := parquet_image df]> (files w)) (dirs w) (posts w)
                         (stdout w) (ticks w))
    else (Raise (OSError path), w).

(** [requests.post(url, data=payload)]: the request is logged, the site
    answers as a function of what it has been sent before. *)
Definition requests_post `{Environment} (req : Request) : M Response :=
  fun w => (server (posts w) req,
            mkWorld (files w) (dirs w) (posts w ++ [req]) (stdout w) (ticks w)).

(** [datetime.now(timezone.utc)] *)
Definition datetime_now `{Environment} : M datetime :=
  fun w => (Ok (utcnow (ticks w)),
            mkWorld (files w) (dirs w) (posts w) (stdout w) (S (ticks w))).

(** A [for] loop whose body may [break]. *)
Inductive ctl (S : Type) : Type :=
  | Next (s : S)
  | Break (s : S).
Arguments Next {S} s.
Arguments Break {S} s.

Fixpoint for_loop {A S} (body : A -> S -> M (ctl S)) (l : list A) (s : S) : M S :=
  match l with
  | [] => ret s
  | x :: l' =>
      let* c := body x s in
      match c with
      | Next s' => for_loop body l' s'
      | Break s' => ret s'
      end
  end.

(** ** Formatting *)

(** [f'{n:0w}'] for a non-negative [n]. *)
Definition zero_pad (width : nat) (n : Z) : string :=
  let s := pretty n in
  String.concat "" (replicate (width - String.length s) "0") +:+ s.

(** [t.strftime("_%Y-%m-%d_%H-%M-%S_GMT")], with [%Y] as the C library
    prints it: the year in decimal without padding. *)
Definition strftime_stamp (t : datetime) : string :=
  "_" +:+ pretty (dt_year t) +:+ "-" +:+ zero_pad 2 (dt_month t)
      +:+ "-" +:+ zero_pad 2 (dt_day t)
      +:+ "_" +:+ zero_pad 2 (dt_hour t) +:+ "-" +:+ zero_pad 2 (dt_minute t)
      +:+ "-" +:+ zero_pad 2 (dt_second t) +:+ "_GMT".

(** [repr] of a pair of integers and of a list of such pairs. *)
Definition repr_pair (p : Z * Z) : string :=
  "(" +:+ pretty (fst p) +:+ ", " +:+ pretty (snd p) +:+ ")".

Definition repr_pairs (l : list (Z * Z)) : string :=
  "[" +:+ join ", " (map repr_pair l) +:+ "]".

(** ** The script *)

Definition DATA_FOLDER : string := "bd_bank_historical_interest_rate_data".

Definition fetch_url : string :=
  "https://www.bb.org.bd/en/index.php/financialactivity/interestdeposit".

Definition month_year_label : label := ["month_year"; "month_year"].

Definition get_data_table `{Environment} (month year : Z) : M (option DataFrame) :=
  let* name := lift (month_name month) in
  let month_name := capitalize name in
  let* last_day := lift (monthrange_days year month) in
  let payload := mkRequest fetch_url month_name (pretty year) "Search" in
  let* response := requests_post payload in
  if status_code response =? 200 then
    print ("Data fetched for " +:+ month_name +:+ ", " +:+ pretty year);;
    let* data_tables := lift (read_html (text response)) in
    let* data_table := lift (py_index data_tables 0) in
    let* date_column :=
      lift (to_datetime (pretty year +:+ "-" +:+ zero_pad 2 month
                         +:+ "-" +:+ pretty last_day)) in
    ret (Some (set_column month_year_label date_column data_table))
  else
    print ("Failed to fetch data for " +:+ month_name +:+ ", " +:+ pretty year
           +:+ " with status code: " +:+ pretty (status_code response));;
    ret None.

Definition cache_path (month year : Z) : string :=
  path_join DATA_FOLDER (pretty month +:+ "_" +:+ pretty year +:+ ".parquet").

Definition load_or_fetch_data `{Environment} (month year : Z) : M (option DataFrame) :=
  let file_path := cache_path month year in
  let* hit := path_exists file_path in
  if hit then
    let* name := lift (month_name month) in
    print ("Loading data for " +:+ name +:+ ", " +:+ pretty year
           +:+ " from " +:+ file_path);;
    let* df := read_parquet file_path in
    ret (Some df)
  else
    let* data_table := get_data_table month year in
    match data_table with
    | Some df => to_parquet df file_path
    | None => ret tt
    end;;
    ret data_table.

(** The condition of the final list comprehension of [create_fetch_list]. *)
Definition not_beyond (current_year current_month : Z) (p : Z * Z) : bool :=
  let '(month, year) := p in
  (year <? current_year) || ((year =? current_year) && (month <=? current_month)).

Definition create_fetch_list `{Environment} (start_year end_year : Z) : M (list (Z * Z)) :=
  if end_year <? start_year then
    raise (ValueError "End year cannot be smaller than start year.")
  else
    let* t_year := datetime_now in
    let current_year := dt_year t_year in
    let* t_month := datetime_now in
    let current_month := dt_month t_month in
    print ("Current year: " +:+ pretty current_year);;
    print ("Current month: " +:+ pretty current_month);;
    let* fetch_list :=
      for_loop (fun year fetch_list =>
                  let max_month := if year <? current_year then 12 else current_month in
                  print ("Max month for year " +:+ pretty year +:+ " : " +:+ pretty max_month);;
                  ret (Next (fetch_list
                             ++ map (fun month => (month, year)) (py_range 1 (max_month + 1)))))
               (py_range start_year (end_year + 1)) [] in
    let fetch_list := List.filter (not_beyond current_year current_month) fetch_list in
    print ("Fetch list: " +:+ repr_pairs fetch_list);;
    ret fetch_list.

(** The three local variables of [get_data_for_months]. *)
Record LoopState : Type := mkLoopState {
  all_tables : list DataFrame;
  consecutive_zero_rows : Z;
  consecutive_zero_months : list string
}.

Definition initial_state : LoopState := mkLoopState [] 0 [].

(** One iteration of the loop of [get_data_for_months]. *)
Definition aggregate_step `{Environment} (entry : Z * Z) (st : LoopState) : M (ctl LoopState) :=
  let '(month, year) := entry in
  let* data_table := load_or_fetch_data month year in
  let* shp := lift (shape data_table) in
  print ("The shape for fetched table " +:+ pretty month +:+ ", " +:+ pretty year
         +:+ " is " +:+ repr_pair shp);;
  match data_table with
  | Some df =>
      if 0 <? len df then
        ret (Next (mkLoopState (all_tables st ++ [df]) 0 []))
      else
        let zero_rows := consecutive_zero_rows st + 1 in
        let* name := lift (month_name month) in
        let zero_months := consecutive_zero_months st ++ [name +:+ ", " +:+ pretty year] in
        let st' := mkLoopState (all_tables st) zero_rows zero_months in
        if zero_rows =? 5 then
          print ("No data for consecutive 5 months: " +:+ join ", " zero_months);;
          print "Data fetch aborted.";;
          ret (Break st')
        else ret (Next st')
  | None => ret (Next st)
  end.

Definition aggregate_loop `{Environment} (entries : list (Z * Z)) (st : LoopState) : M LoopState :=
  for_loop aggregate_step entries st.

Definition get_data_for_months `{Environment} (fetch_list : list (Z * Z)) : M DataFrame :=
  let* st := aggregate_loop (rev fetch_list) initial_state in
  lift (pd_concat (all_tables st)).

Definition file_name_combined : string := "historic_rate_data_bd_banks_combined.parquet".

(** [main], with the two parsed command-line integers as arguments. *)
Definition main `{Environment} (start_year end_year : Z) : M unit :=
  let* present := path_exists DATA_FOLDER in
  (if negb present then makedirs DATA_FOLDER else ret tt);;
  let* planned :=
    try_except_ValueError
      (let* fetch_list := create_fetch_list start_year end_year in ret (Some fetch_list))
      (fun e => print e;; ret None) in
  match planned with
  | None => ret tt
  | Some [] => print "No months to fetch data for.";; ret tt
  | Some fetch_list =>
      let* result_table := get_data_for_months fetch_list in
      let* taken := path_exists file_name_combined in
      let* file_name :=
        if taken then
          let* t := datetime_now in
          let current_time := strftime_stamp t in
          let* stem := lift (py_index (split file_name_combined ".parquet") 0) in
          ret (stem +:+ current_time +:+ ".parquet")
        else ret file_name_combined in
      to_parquet result_table file_name;;
      print ("Result table saved as " +:+ file_name);;
      ret tt
  end.

(** ** Sample environments and worlds

    Concrete instances on which the properties below are exercised. *)

Definition sample_table (n : nat) : DataFrame :=
  mkDataFrame [["Bank"]; ["Rate"]] (replicate n [Str "Sonali"; Str "6.00"]).

(** A site that publishes ten rows for every January, refuses every June
    with status 404, and answers any other month with an empty table. *)
Definition demo_server (seen : list Request) (req : Request) : result Response :=
  if decide (select_month req = "January") then Ok (mkResponse 200 "ten")
  else if decide (select_month req = "June") then Ok (mkResponse 404 "")
  else Ok (mkResponse 200 "none").

Definition demo_read_html (page : string) : result (list DataFrame) :=
  if decide (page = "ten") then Ok [sample_table 10]
  else if decide (page = "none") then Ok [sample_table 0]
  else Raise (ValueError "No tables found").

Definition digit_value (c : ascii) : option Z :=
  let n := Z.of_N (Ascii.N_of_ascii c) in
  if (48 <=? n) && (n <=? 57) then Some (n - 48) else None.

(** A strict reading of ['%Y-%m-%d']: four digits, two digits, two digits. *)
Definition demo_to_datetime (s : string) : result cell :=
  let no_match := Raise (ValueError "time data doesn't match format '%Y-%m-%d'") in
  match s with
  | String y1 (String y2 (String y3 (String y4 (String "-" (String m1 (String m2
      (String "-" (String d1 (String d2 EmptyString))))))))) =>
      match digit_value y1, digit_value y2, digit_value y3, digit_value y4,
            digit_value m1, digit_value m2, digit_value d1, digit_value d2 with
      | Some a, Some b, Some c, Some d, Some e, Some f, Some g, Some h =>
          Ok (Timestamp (1000 * a + 100 * b + 10 * c + d) (10 * e + f) (10 * g + h))
      | _, _, _, _, _, _, _, _ => no_match
      end
  | _ => no_match
  end.

(** [repr] of a tuple of strings. *)
Definition repr_tuple (l : label) : string :=
  "(" +:+ join ", " (map (fun s => "'" +:+ s +:+ "'") l) +:+ ")".

(** The columns form a [MultiIndex]: all labels are tuples of one length. *)
Definition is_multiindex (cols : list label) : bool :=
  match cols with
  | [] => false
  | c :: _ => (2 <=? length c)%nat && forallb (fun c' => (length c' =? length c)%nat) cols
  end.

(** A parquet round trip that keeps the rows, keeps the labels of a
    [MultiIndex], and otherwise hands a tuple label back as its text. *)
Definition demo_parquet_image (df : DataFrame) : DataFrame :=
  if is_multiindex (columns df) then df
  else mkDataFrame (map (fun l => match l with [_] => l | _ => [repr_tuple l] end)
                        (columns df))
                   (rows df).

Definition demo_env : Environment :=
  {| server := demo_server;
     read_html := demo_read_html;
     to_datetime := demo_to_datetime;
     parquet_image := demo_parquet_image;
     utcnow := fun _ => mkDatetime 2023 3 15 10 20 30 |}.

Definition empty_world : World := mkWorld ∅ ∅ [] [] 0.

(** A first run: the data folder is there and empty. *)
Definition fresh_world : World := mkWorld ∅ {[ DATA_FOLDER ]} [] [] 0.

(** A world in which the data folder exists and an earlier run has left its
    combined output behind. *)
Definition second_run_world : World :=
  mkWorld {[ file_name_combined := sample_table 1 ]} {[ DATA_FOLDER ]} [] [] 0.

(** The loop state after four empty months in a row. *)
Definition four_empty_months : LoopState :=
  mkLoopState [] 4 ["July, 2022"; "May, 2022"; "April, 2022"; "March, 2022"].

(** ** Specification vocabulary *)

(** [(year, month)] lies strictly after [(current_year, current_month)]. *)
Definition strictly_later (year month current_year current_month : Z) : Prop :=
  current_year < year \/ (year = current_year /\ current_month < month).

(** A UTC date and time as [datetime] has them. *)
Definition valid_datetime (t : datetime) : Prop :=
  1 <= dt_year t <= 9999 /\ 1 <= dt_month t <= 12 /\ 1 <= dt_day t <= 31
  /\ 0 <= dt_hour t <= 23 /\ 0 <= dt_minute t <= 59 /\ 0 <= dt_second t <= 59.

(** The name of the combined output stamped with the date and time [t]:
    year, month and day, then hour, minute and second. *)
Definition stamped_name (t : datetime) : string :=
  "historic_rate_data_bd_banks_combined_"
  +:+ pretty (dt_year t) +:+ "-" +:+ zero_pad 2 (dt_month t)
  +:+ "-" +:+ zero_pad 2 (dt_day t)
  +:+ "_" +:+ zero_pad 2 (dt_hour t) +:+ "-" +:+ zero_pad 2 (dt_minute t)
  +:+ "-" +:+ zero_pad 2 (dt_second t) +:+ "_GMT.parquet".

(** The world once [main] has made sure that the data folder exists. *)
Definition with_data_folder (w : World) : World :=
  snd ((let* present := path_exists DATA_FOLDER in
        if negb present then makedirs DATA_FOLDER else ret tt) w).

(** The world after one more printed line. *)
Definition say (line : string) (w : World) : World := snd (print line w).

(** The line printed by the aggregation loop about a resolved table. *)
Definition shape_line (month year : Z) (df : DataFrame) : string :=
  "The shape for fetched table " +:+ pretty month +:+ ", " +:+ pretty year
  +:+ " is " +:+ repr_pair (len df, Z.of_nat (length (columns df))).

(** The request sent for a month of a given name. *)
Definition payload_for (name : string) (year : Z) : Request :=
  mkRequest fetch_url (capitalize name) (pretty year) "Search".

(** Paths inside the cache folder. *)
Definition in_data_folder (path : string) : Prop :=
  exists name, path = path_join DATA_FOLDER name.

(** The pairs appended by the two nested loops of [create_fetch_list]. *)
Definition planned_months (current_year current_month : Z) (years : list Z) : list (Z * Z) :=
  flat_map (fun year =>
              map (fun month => (month, year))
                  (py_range 1 ((if year <? current_year then 12 else current_month) + 1)))
           years.

(** The line printed for each year of the range. *)
Definition max_month_line (current_year current_month year : Z) : string :=
  "Max month for year " +:+ pretty year +:+ " : "
  +:+ pretty (if year <? current_year then 12 else current_month).

(** The lines [create_fetch_list] prints around those of the year loop. *)
Definition plan_lines (current_year current_month : Z) (years : list Z)
    (fetch_list : list (Z * Z)) : list string :=
  ["Current year: " +:+ pretty current_year;
   "Current month: " +:+ pretty current_month]
  ++ map (max_month_line current_year current_month) years
  ++ ["Fetch list: " +:+ repr_pairs fetch_list].

(** [iterates body l s w s' w']: from state [s] in world [w] the loop body
    runs over all of [l] without breaking or raising, ending in [s'], [w']. *)
Inductive iterates {A S} (body : A -> S -> M (ctl S)) :
  list A -> S -> World -> S -> World -> Prop :=
  | iterates_nil s w : iterates body [] s w s w
  | iterates_cons x l s w s1 w1 s' w' :
      body x s w = (Ok (Next s1), w1) ->
      iterates body l s1 w1 s' w' ->
      iterates body (x :: l) s w s' w'.

(** Every row of the table has one cell per column. *)
Definition well_formed (df : DataFrame) : Prop :=
  Forall (fun r => length r = length (columns df)) (rows df).

(** The cell of row [r] of table [df] under the column labelled [lbl]. *)
Definition cell_at (lbl : label) (df : DataFrame) (r : list cell) : option cell :=
  match index_of lbl (columns df) with
  | Some i => r !! i
  | None => None
  end.

(** Chronological order on the [(month, year)] pairs of a plan. *)
Definition earlier_than (p q : Z * Z) : Prop :=
  snd p < snd q \/ (snd p = snd q /\ fst p < fst q).

(** The cache of world [w] holds table [df] for the plan entry [entry]. *)
Definition cached (w : World) (entry : Z * Z) (df : DataFrame) : Prop :=
  files w !! cache_path (fst entry) (snd entry) = Some df.

(** A site that cannot be reached. *)
Definition offline_env : Environment :=
  {| server := fun _ _ => Raise (ConnectionError "Max retries exceeded");
     read_html := demo_read_html;
     to_datetime := demo_to_datetime;
     parquet_image := demo_parquet_image;
     utcnow := fun _ => mkDatetime 2023 3 15 10 20 30 |}.

(** A site that answers with a page in which no table is found. *)
Definition tableless_env : Environment :=
  {| server := fun _ _ => Ok (mkResponse 200 "maintenance");
     read_html := demo_read_html;
     to_datetime := demo_to_datetime;
     parquet_image := demo_parquet_image;
     utcnow := fun _ => mkDatetime 2023 3 15 10 20 30 |}.

(** A world whose cache holds the first three months of 2023, ten rows for
    January and February, none for March. *)
Definition cached_world : World :=
  mkWorld {[ cache_path 1 2023 := sample_table 10;
             cache_path 2 2023 := sample_table 10;
             cache_path 3 2023 := sample_table 0 ]}
          {[ DATA_FOLDER ]} [] [] 0.

(** A world whose cache holds empty tables for the five months up to May
    2022, and ten rows for December 2021. *)
Definition barren_world : World :=
  mkWorld {[ cache_path 12 2021 := sample_table 10;
             cache_path 1 2022 := sample_table 0;
             cache_path 2 2022 := sample_table 0;
             cache_path 3 2022 := sample_table 0;
             cache_path 4 2022 := sample_table 0;
             cache_path 5 2022 := sample_table 0 ]}
          {[ DATA_FOLDER ]} [] [] 0.

(** What every state of the aggregation loop satisfies: the collected
    tables have rows, and the counter counts the recorded labels. *)
Definition tidy (st : LoopState) : Prop :=
  Forall (fun df => 0 < len df) (all_tables st)
  /\ Z.of_nat (length (consecutive_zero_months st)) = consecutive_zero_rows st.

(** Table [stored] is what a later read of the cache gives for a table
    [t] that a run resolved: [t] itself when it came from the cache, the
    table that comes back from its parquet file when it was fetched. *)
Definition read_back `{Environment} (t stored : DataFrame) : Prop :=
  stored = t \/ stored = parquet_image t.

(** Two loop states that took the same course: same counter, same labels,
    and table by table what the second holds is the first's read back. *)
Definition same_course `{Environment} (st st2 : LoopState) : Prop :=
  consecutive_zero_rows st2 = consecutive_zero_rows st
  /\ consecutive_zero_months st2 = consecutive_zero_months st
  /\ Forall2 read_back (all_tables st) (all_tables st2).

(** The sample site seen in the middle of June 2023. *)
Definition june_env : Environment :=
  {| server := demo_server;
     read_html := demo_read_html;
     to_datetime := demo_to_datetime;
     parquet_image := demo_parquet_image;
     utcnow := fun _ => mkDatetime 2023 6 15 10 20 30 |}.

(** ** Proof automation for runs of the monad *)

Ltac unfold_monad :=
  unfold bind, ret, raise, lift, print, path_exists, makedirs, read_parquet,
         to_parquet, requests_post, datetime_now in *.

(** Case analysis along every branch a run can take. *)
Ltac run_cases :=
  unfold_monad;
  repeat match goal with
         | E : (_, _) = (_, _) |- _ => inversion E; subst; clear E
         | E : context [match ?x with _ => _ end] |- _ => destruct x eqn:?
         | E : context [if ?b then _ else _] |- _ => destruct b eqn:?
         end;
  cbn [files dirs posts stdout ticks fst snd] in *.

(** ** Generic facts about the monad and the loops *)

Lemma bind_ok {A B} (m : M A) (k : A -> M B) w a w' :
  m w = (Ok a, w') -> bind m k w = k a w'.
Proof. intros E. unfold bind. now rewrite E. Qed.

Lemma bind_raise {A B} (m : M A) (k : A -> M B) w e w' :
  m w = (Raise e, w') -> bind m k w = (Raise e, w').
Proof. intros E. unfold bind. now rewrite E. Qed.

Lemma for_loop_next {A S} (body : A -> S -> M (ctl S)) x l s w s' w' :
  body x s w = (Ok (Next s'), w') ->
  for_loop body (x :: l) s w = for_loop body l s' w'.
Proof. intros E. simpl. now rewrite (bind_ok _ _ _ _ _ E). Qed.

Lemma for_loop_break {A S} (body : A -> S -> M (ctl S)) x l s w s' w' :
  body x s w = (Ok (Break s'), w') ->
  for_loop body (x :: l) s w = (Ok s', w').
Proof. intros E. simpl. now rewrite (bind_ok _ _ _ _ _ E). Qed.

Lemma for_loop_raise {A S} (body : A -> S -> M (ctl S)) x l s w e w' :
  body x s w = (Raise e, w') ->
  for_loop body (x :: l) s w = (Raise e, w').
Proof. intros E. simpl. now rewrite (bind_raise _ _ _ _ _ E). Qed.

Lemma for_loop_iterates {A S} (body : A -> S -> M (ctl S)) l1 l2 s w s' w' :
  iterates body l1 s w s' w' ->
  for_loop body (l1 ++ l2) s w = for_loop body l2 s' w'.
Proof.
  induction 1 as [|x l s w s1 w1 s' w' Hx _ IH]; [reflexivity|].
  rewrite <- IH. now apply for_loop_next.
Qed.

(** ** Texts and paths *)

Lemma occurs_app c s1 s2 : occurs c (s1 +:+ s2) = occurs c s1 || occurs c s2.
Proof.
  induction s1 as [|c1 s1 IH]; [reflexivity|].
  simpl. now rewrite IH, orb_assoc.
Qed.

Lemma pretty_N_go_occurs c x s :
  (forall d, pretty_N_char d <> c) ->
  occurs c s = false -> occurs c (pretty_N_go x s) = false.
Proof.
  intros Hc. revert s. induction (N.lt_wf_0 x) as [x _ IH]. intros s Hs.
  assert (x = 0 \/ 0 < x)%N as [-> | Hx] by lia.
  - now rewrite pretty_N_go_0.
  - rewrite pretty_N_go_step by assumption. apply IH.
    + now apply N.div_lt.
    + cbn [occurs]. rewrite Hs, orb_false_r. apply bool_decide_eq_false_2, Hc.
Qed.

Lemma pretty_Z_occurs c (z : Z) :
  (forall d, pretty_N_char d <> c) -> c <> "-"%char ->
  occurs c (pretty z) = false.
Proof.
  intros Hc Hdash.
  assert (Hpos : forall p : positive, occurs c (pretty p) = false).
  { intros p. unfold pretty, pretty_positive, pretty, pretty_N.
    rewrite decide_False by discriminate. now apply pretty_N_go_occurs. }
  destruct z as [|p|p]; unfold pretty, pretty_Z.
  - cbn [occurs]. rewrite orb_false_r. apply bool_decide_eq_false_2.
    intros <-. now apply (Hc 0%N).
  - apply Hpos.
  - rewrite occurs_app, Hpos, orb_false_r. cbn [occurs]. rewrite orb_false_r.
    apply bool_decide_eq_false_2. congruence.
Qed.

Lemma not_a_digit_underscore d : pretty_N_char d <> "_"%char.
Proof. unfold pretty_N_char. repeat case_match; discriminate. Qed.

Lemma not_a_digit_dot d : pretty_N_char d <> "."%char.
Proof. unfold pretty_N_char. repeat case_match; discriminate. Qed.

(** Two texts cut at the first occurrence of [c] agree piecewise. *)
Lemma cut_at_first c s s' t t' :
  occurs c s = false -> occurs c s' = false ->
  s +:+ String c t = s' +:+ String c t' -> s = s' /\ t = t'.
Proof.
  revert s'. induction s as [|a s IH]; intros [|a' s'] Hs Hs'; cbn [String.append].
  - intros [= ->]. auto.
  - intros [= <- _]. cbn [occurs] in Hs'. rewrite bool_decide_eq_true_2 in Hs' by reflexivity.
    discriminate.
  - intros [= -> _]. cbn [occurs] in Hs. rewrite bool_decide_eq_true_2 in Hs by reflexivity.
    discriminate.
  - intros [= -> Heq]. cbn [occurs] in Hs, Hs'.
    apply orb_false_iff in Hs as [_ Hs]. apply orb_false_iff in Hs' as [_ Hs'].
    destruct (IH s' Hs Hs' Heq) as [-> ->]. auto.
Qed.

Lemma not_a_digit_slash d : pretty_N_char d <> "/"%char.
Proof. unfold pretty_N_char. repeat case_match; discriminate. Qed.

Lemma not_a_digit_dash d : pretty_N_char d <> "-"%char.
Proof. unfold pretty_N_char. repeat case_match; discriminate. Qed.

Lemma parent_of_bare path : occurs "/" path = false -> parent_of path = "".
Proof.
  destruct path as [|c rest]; [reflexivity|]. cbn [occurs parent_of].
  intros H. apply orb_false_iff in H as [_ ->]. reflexivity.
Qed.

Lemma parent_of_join dir name :
  occurs "/" name = false -> parent_of (path_join dir name) = dir.
Proof.
  unfold path_join. intros Hn. induction dir as [|c dir IH].
  - change ("" +:+ "/" +:+ name) with (String "/" name).
    cbn [parent_of]. now rewrite Hn.
  - change (String c dir +:+ "/" +:+ name) with (String c (dir +:+ "/" +:+ name)).
    cbn [parent_of]. rewrite occurs_app.
    change ("/" +:+ name) with (String "/" name) at 1. cbn [occurs].
    rewrite bool_decide_eq_true_2 by reflexivity. cbn [orb]. rewrite orb_true_r.
    now rewrite IH.
Qed.

Lemma cache_path_parent month year : parent_of (cache_path month year) = DATA_FOLDER.
Proof.
  unfold cache_path. apply parent_of_join.
  rewrite !occurs_app, !pretty_Z_occurs
    by (try apply not_a_digit_slash; discriminate).
  reflexivity.
Qed.

Section Properties.
Context `{env : Environment}.

(** ** The calendar *)

Lemma month_name_in_range month :
  1 <= month <= 12 -> exists name, month_name month = Ok name.
Proof.
  intros Hm. unfold month_name, py_index.
  assert (Hc : month = 1 \/ month = 2 \/ month = 3 \/ month = 4 \/ month = 5
               \/ month = 6 \/ month = 7 \/ month = 8 \/ month = 9 \/ month = 10
               \/ month = 11 \/ month = 12) by lia.
  repeat (destruct Hc as [-> | Hc]; [eexists; reflexivity|]).
  subst. eexists; reflexivity.
Qed.

Lemma monthrange_days_in_range year month :
  1 <= month <= 12 -> exists d, monthrange_days year month = Ok d.
Proof.
  intros Hm. unfold monthrange_days.
  replace ((1 <=? month) && (month <=? 12)) with true
    by (symmetry; apply andb_true_iff; lia).
  eexists; reflexivity.
Qed.

(** ** The remote fetch *)

Lemma get_data_table_non_200 month year w name resp :
  1 <= month <= 12 ->
  month_name month = Ok name ->
  server (posts w) (payload_for name year) = Ok resp ->
  status_code resp <> 200 ->
  get_data_table month year w =
    (Ok None,
     mkWorld (files w) (dirs w) (posts w ++ [payload_for name year])
             (stdout w ++ ["Failed to fetch data for " +:+ capitalize name +:+ ", "
                           +:+ pretty year +:+ " with status code: "
                           +:+ pretty (status_code resp)])
             (ticks w)).
Proof.
  intros Hm Hn Hs Hc.
  destruct (monthrange_days_in_range year month Hm) as [d Hd].
  unfold get_data_table, bind, lift, requests_post. rewrite Hn, Hd.
  fold (payload_for name year). rewrite Hs.
  destruct (Z.eqb_spec (status_code resp) 200) as [?|_]; [contradiction|].
  reflexivity.
Qed.

Lemma get_data_table_frame month year w r w' :
  get_data_table month year w = (r, w') ->
  files w' = files w /\ dirs w' = dirs w /\ ticks w' = ticks w.
Proof. intros H. unfold get_data_table in H. run_cases; auto. Qed.

(** A fetch that returns has sent exactly one request. *)
Lemma get_data_table_one_post month year w r w' :
  get_data_table month year w = (Ok r, w') ->
  exists req, posts w' = posts w ++ [req].
Proof. intros H. unfold get_data_table in H. run_cases; eauto. Qed.

(** ** The monthly cache *)

Lemma load_or_fetch_data_hit month year w df name :
  files w !! cache_path month year = Some df ->
  month_name month = Ok name ->
  load_or_fetch_data month year w =
    (Ok (Some df),
     say ("Loading data for " +:+ name +:+ ", " +:+ pretty year
          +:+ " from " +:+ cache_path month year) w).
Proof.
  intros Hf Hn. unfold load_or_fetch_data. unfold_monad.
  rewrite Hf, Hn.
  rewrite bool_decide_eq_true_2 by eauto. cbn [orb files]. now rewrite Hf.
Qed.

Lemma load_or_fetch_data_miss month year w :
  files w !! cache_path month year = None ->
  cache_path month year ∉ dirs w ->
  load_or_fetch_data month year w =
    match get_data_table month year w with
    | (Ok (Some df), w1) =>
        match to_parquet df (cache_path month year) w1 with
        | (Ok _, w2) => (Ok (Some df), w2)
        | (Raise e, w2) => (Raise e, w2)
        end
    | other => other
    end.
Proof.
  intros Hf Hd. unfold load_or_fetch_data, bind at 1, path_exists.
  rewrite bool_decide_eq_false_2 by (rewrite Hf; intros [? ?]; discriminate).
  rewrite bool_decide_eq_false_2 by assumption. cbn [orb].
  unfold bind. destruct (get_data_table month year w) as [[[df|]|e] w1]; reflexivity.
Qed.

(** Resolving a month touches no file but that month's cache file. *)
Lemma load_or_fetch_data_frame month year w r w' :
  load_or_fetch_data month year w = (r, w') ->
  dirs w' = dirs w /\ ticks w' = ticks w /\
  forall path, path <> cache_path month year -> files w' !! path = files w !! path.
Proof.
  intros H. unfold load_or_fetch_data in H. unfold bind at 1, path_exists in H.
  destruct (_ || _) eqn:Hhit in H.
  - run_cases; auto.
  - unfold bind at 1 in H.
    destruct (get_data_table month year w) as [[[df|]|e] w1] eqn:Hg.
    all: apply get_data_table_frame in Hg as (Hf & Hd & Ht).
    all: run_cases; rewrite <- ?Hf; repeat split; auto.
    intros path Hp. rewrite lookup_insert_ne by congruence. now rewrite Hf.
Qed.

Lemma load_or_fetch_data_month_name month year w r w' :
  load_or_fetch_data month year w = (Ok r, w') ->
  exists name, month_name month = Ok name.
Proof.
  intros H. unfold load_or_fetch_data, get_data_table in H.
  destruct (month_name month) as [name|e] eqn:Hn; [eauto|].
  run_cases.
Qed.

Lemma cache_path_in_data_folder month year : in_data_folder (cache_path month year).
Proof. unfold in_data_folder, cache_path. eauto. Qed.

Lemma combined_names_outside_data_folder suffix :
  ~ in_data_folder ("historic_rate_data_bd_banks_combined" +:+ suffix).
Proof. intros [name Hn]. discriminate Hn. Qed.

(** ** One iteration of the aggregation loop *)

Lemma len_nonneg df : 0 <= len df.
Proof. unfold len. lia. Qed.

Lemma aggregate_step_raise month year st w e w1 :
  load_or_fetch_data month year w = (Raise e, w1) ->
  aggregate_step (month, year) st w = (Raise e, w1).
Proof. intros H. unfold aggregate_step. now rewrite (bind_raise _ _ _ _ _ H). Qed.

Lemma aggregate_step_absent month year st w w1 :
  load_or_fetch_data month year w = (Ok None, w1) ->
  aggregate_step (month, year) st w =
    (Raise (AttributeError "'NoneType' object has no attribute 'shape'"), w1).
Proof. intros H. unfold aggregate_step. now rewrite (bind_ok _ _ _ _ _ H). Qed.

Lemma aggregate_step_rows month year st w df w1 :
  load_or_fetch_data month year w = (Ok (Some df), w1) ->
  0 < len df ->
  aggregate_step (month, year) st w =
    (Ok (Next (mkLoopState (all_tables st ++ [df]) 0 [])),
     say (shape_line month year df) w1).
Proof.
  intros H Hl. unfold aggregate_step. rewrite (bind_ok _ _ _ _ _ H).
  unfold bind, lift, shape, print, ret, say.
  destruct (Z.ltb_spec 0 (len df)); [reflexivity | lia].
Qed.

Lemma aggregate_step_zero_rows month year st w df w1 name :
  load_or_fetch_data month year w = (Ok (Some df), w1) ->
  len df = 0 ->
  month_name month = Ok name ->
  let zero_months := consecutive_zero_months st ++ [name +:+ ", " +:+ pretty year] in
  let st' := mkLoopState (all_tables st) (consecutive_zero_rows st + 1) zero_months in
  aggregate_step (month, year) st w =
    if consecutive_zero_rows st + 1 =? 5
    then (Ok (Break st'),
          say "Data fetch aborted."
            (say ("No data for consecutive 5 months: " +:+ join ", " zero_months)
               (say (shape_line month year df) w1)))
    else (Ok (Next st'), say (shape_line month year df) w1).
Proof.
  intros H Hl Hn zero_months st'. unfold aggregate_step. rewrite (bind_ok _ _ _ _ _ H).
  unfold bind, lift, shape, print, ret, say. rewrite Hn.
  destruct (Z.ltb_spec 0 (len df)); [lia|].
  cbn [fst snd]. fold zero_months. fold st'.
  destruct (consecutive_zero_rows st + 1 =? 5); reflexivity.
Qed.

(** The loop writes nothing outside the cache folder and never reads the clock. *)
Lemma aggregate_step_frame entry st w r w' :
  aggregate_step entry st w = (r, w') ->
  dirs w' = dirs w /\ ticks w' = ticks w /\
  forall path, ~ in_data_folder path -> files w' !! path = files w !! path.
Proof.
  destruct entry as [month year]. intros H. unfold aggregate_step in H.
  unfold bind at 1 in H.
  destruct (load_or_fetch_data month year w) as [[data_table|e] w1] eqn:Hl.
  all: apply load_or_fetch_data_frame in Hl as (Hd & Ht & Hf).
  all: assert (Hf' : forall path, ~ in_data_folder path -> files w1 !! path = files w !! path)
         by (intros path Hp; apply Hf; intros ->; apply Hp, cache_path_in_data_folder).
  all: run_cases; auto.
Qed.

Lemma aggregate_loop_frame entries st w r w' :
  aggregate_loop entries st w = (r, w') ->
  dirs w' = dirs w /\ ticks w' = ticks w /\
  forall path, ~ in_data_folder path -> files w' !! path = files w !! path.
Proof.
  unfold aggregate_loop. revert st w.
  induction entries as [|entry entries IH]; intros st w H; simpl in H.
  - unfold ret in H. inversion H; subst. auto.
  - unfold bind in H.
    destruct (aggregate_step entry st w) as [[[st1|st1]|e] w1] eqn:Hs.
    all: apply aggregate_step_frame in Hs as (Hd & Ht & Hf).
    + apply IH in H as (Hd' & Ht' & Hf').
      repeat split; try congruence. intros path Hp. rewrite Hf', Hf; auto.
    + unfold ret in H. inversion H; subst. auto.
    + inversion H; subst. auto.
Qed.

(** ** Concatenation *)

Lemma stacked_rows_length cols (tables : list DataFrame) :
  Z.of_nat (length (concat (map (fun df => map (reindex cols df) (rows df)) tables)))
  = foldr (fun df n => len df + n) 0 tables.
Proof.
  induction tables as [|df l IH]; [reflexivity|].
  cbn [map concat foldr]. rewrite length_app, length_map, Nat2Z.inj_add, IH.
  reflexivity.
Qed.

Lemma pd_concat_len tables res :
  pd_concat tables = Ok res ->
  len res = foldr (fun df n => len df + n) 0 tables.
Proof.
  unfold pd_concat. destruct tables as [|t tables]; [discriminate|].
  intros H. injection H as <-.
  exact (stacked_rows_length (union_columns (t :: tables)) (t :: tables)).
Qed.

(** ** The planner *)

Lemma year_loop current_year current_month years acc w :
  for_loop (fun year fetch_list =>
              let max_month := if year <? current_year then 12 else current_month in
              print ("Max month for year " +:+ pretty year +:+ " : " +:+ pretty max_month);;
              ret (Next (fetch_list
                         ++ map (fun month => (month, year)) (py_range 1 (max_month + 1)))))
           years acc w
  = (Ok (acc ++ planned_months current_year current_month years),
     mkWorld (files w) (dirs w) (posts w)
             (stdout w ++ map (max_month_line current_year current_month) years)
             (ticks w)).
Proof.
  revert acc w. induction years as [|year years IH]; intros acc w.
  - simpl. unfold ret. rewrite !app_nil_r. now destruct w.
  - cbn [for_loop]. unfold bind at 1. unfold bind at 1. unfold print at 1.
    unfold ret at 1. rewrite IH. cbn [files dirs posts stdout ticks map planned_months flat_map].
    rewrite <- !app_assoc. reflexivity.
Qed.

Lemma create_fetch_list_valid start_year end_year w :
  start_year <= end_year ->
  let current_year := dt_year (utcnow (ticks w)) in
  let current_month := dt_month (utcnow (S (ticks w))) in
  let years := py_range start_year (end_year + 1) in
  let fetch_list := List.filter (not_beyond current_year current_month)
                                (planned_months current_year current_month years) in
  create_fetch_list start_year end_year w
  = (Ok fetch_list,
     mkWorld (files w) (dirs w) (posts w)
             (stdout w ++ plan_lines current_year current_month years fetch_list)
             (S (S (ticks w)))).
Proof.
  intros Hr current_year current_month years fetch_list. unfold create_fetch_list.
  destruct (Z.ltb_spec end_year start_year); [lia|].
  unfold bind at 1. unfold datetime_now at 1.
  unfold bind at 1. unfold datetime_now at 1. cbn [ticks].
  unfold bind at 1. unfold print at 1.
  unfold bind at 1. unfold print at 1.
  unfold bind at 1. rewrite year_loop.
  unfold bind, print, ret. cbn [files dirs posts stdout ticks app].
  fold current_year current_month years. fold fetch_list.
  unfold plan_lines. rewrite <- !app_assoc. reflexivity.
Qed.

Lemma create_fetch_list_invalid start_year end_year w :
  end_year < start_year ->
  create_fetch_list start_year end_year w
  = (Raise (ValueError "End year cannot be smaller than start year."), w).
Proof.
  intros Hr. unfold create_fetch_list.
  destruct (Z.ltb_spec end_year start_year); [reflexivity | lia].
Qed.

Lemma in_py_range x a b : In x (py_range a b) -> a <= x < b.
Proof.
  unfold py_range. rewrite in_map_iff. intros (i & <- & Hi).
  apply in_seq in Hi. lia.
Qed.

Lemma planned_months_years current_year current_month years month year :
  In (month, year) (planned_months current_year current_month years) -> In year years.
Proof.
  unfold planned_months. rewrite in_flat_map. intros (y & Hy & Hin).
  apply in_map_iff in Hin as (m & Hm & _). now inversion Hm; subst.
Qed.

Lemma not_beyond_sound current_year current_month month year :
  not_beyond current_year current_month (month, year) = true ->
  ~ strictly_later year month current_year current_month.
Proof.
  unfold not_beyond, strictly_later. intros Hb.
  apply orb_true_iff in Hb as [Hb | Hb].
  - apply Z.ltb_lt in Hb. lia.
  - apply andb_true_iff in Hb as [Hy Hm].
    apply Z.eqb_eq in Hy. apply Z.leb_le in Hm. lia.
Qed.

Lemma filter_nil {A} (f : A -> bool) (l : list A) :
  (forall x, In x l -> f x = false) -> List.filter f l = [].
Proof.
  induction l as [|x l IH]; intros Hf; [reflexivity|].
  simpl. rewrite (Hf x) by now left. apply IH. intros y Hy. apply Hf. now right.
Qed.

(** A range that starts after the current year plans nothing. *)
Lemma future_range_plans_nothing current_year current_month start_year end_year :
  current_year < start_year ->
  List.filter (not_beyond current_year current_month)
    (planned_months current_year current_month (py_range start_year (end_year + 1))) = [].
Proof.
  intros Hf. apply filter_nil. intros [month year] Hin.
  apply planned_months_years, in_py_range in Hin.
  unfold not_beyond. apply orb_false_iff. split.
  - apply Z.ltb_ge. lia.
  - apply andb_false_iff. left. apply Z.eqb_neq. lia.
Qed.

(** ** The folder set-up of [main] *)

Lemma with_data_folder_frame w :
  files (with_data_folder w) = files w /\ posts (with_data_folder w) = posts w
  /\ stdout (with_data_folder w) = stdout w /\ ticks (with_data_folder w) = ticks w.
Proof.
  unfold with_data_folder, bind, path_exists, makedirs, ret.
  destruct (negb _); cbn; auto.
Qed.

Lemma main_after_folder start_year end_year w :
  main start_year end_year w =
  (let* planned :=
     try_except_ValueError
       (let* fetch_list := create_fetch_list start_year end_year in ret (Some fetch_list))
       (fun e => print e;; ret None) in
   match planned with
   | None => ret tt
   | Some [] => print "No months to fetch data for.";; ret tt
   | Some fetch_list =>
       let* result_table := get_data_for_months fetch_list in
       let* taken := path_exists file_name_combined in
       let* file_name :=
         if taken then
           let* t := datetime_now in
           let current_time := strftime_stamp t in
           let* stem := lift (py_index (split file_name_combined ".parquet") 0) in
           ret (stem +:+ current_time +:+ ".parquet")
         else ret file_name_combined in
       to_parquet result_table file_name;;
       print ("Result table saved as " +:+ file_name);;
       ret tt
   end) (with_data_folder w).
Proof.
  unfold main, with_data_folder.
  set (present := bool_decide (is_Some (files w !! DATA_FOLDER))
                  || bool_decide (DATA_FOLDER ∈ dirs w)).
  change ((let* present := path_exists DATA_FOLDER in
           if negb present then makedirs DATA_FOLDER else ret tt) w)
    with ((if negb present then makedirs DATA_FOLDER else ret tt) w).
  unfold bind at 1. change (path_exists DATA_FOLDER w) with (Ok present, w).
  cbv beta iota. destruct (negb present); reflexivity.
Qed.

(** ** Properties of the planner *)

(** C2. When [end_year < start_year], [create_fetch_list] raises the
    [ValueError] of the range check before doing anything else: the world is
    left as it was, so neither the clock is read, nor a line printed by the
    plan-building loop, nor a request sent.  [main] prints the message and
    returns; no request has been sent and no file written. *)
Theorem create_fetch_list_rejects_reversed_range start_year end_year w :
  end_year < start_year ->
  create_fetch_list start_year end_year w
    = (Raise (ValueError "End year cannot be smaller than start year."), w)
  /\ main start_year end_year w
    = (Ok tt, say "End year cannot be smaller than start year." (with_data_folder w))
  /\ posts (snd (main start_year end_year w)) = posts w
  /\ files (snd (main start_year end_year w)) = files w.
Proof.
  intros Hr. split; [now apply create_fetch_list_invalid|].
  assert (Hm : main start_year end_year w
               = (Ok tt, say "End year cannot be smaller than start year."
                             (with_data_folder w))).
  { rewrite main_after_folder. unfold bind at 1, try_except_ValueError.
    unfold bind at 1. rewrite create_fetch_list_invalid by assumption.
    reflexivity. }
  rewrite Hm. cbn [snd say print files posts].
  destruct (with_data_folder_frame w) as (Hf & Hp & _). auto.
Qed.

(** C3. For a valid range the planner returns a plan, and no entry of it lies
    strictly after the year and the month it has read from the UTC clock. *)
Theorem plan_never_beyond_current_month start_year end_year w :
  start_year <= end_year ->
  let current_year := dt_year (utcnow (ticks w)) in
  let current_month := dt_month (utcnow (S (ticks w))) in
  exists fetch_list w',
    create_fetch_list start_year end_year w = (Ok fetch_list, w')
    /\ forall month year,
         In (month, year) fetch_list ->
         ~ strictly_later year month current_year current_month.
Proof.
  intros Hr current_year current_month.
  rewrite (create_fetch_list_valid _ _ w Hr). do 2 eexists. split; [reflexivity|].
  intros month year Hin. apply filter_In in Hin as [_ Hb].
  now apply not_beyond_sound.
Qed.

(** C8. For a valid range [create_fetch_list] returns a plan and never
    raises; the plan is empty when the range starts after the current year;
    and whenever the plan is empty [main] prints its message and returns
    without having sent a request or written a file. *)
Theorem empty_plan_is_a_no_op start_year end_year w :
  start_year <= end_year ->
  exists fetch_list w1,
    create_fetch_list start_year end_year w = (Ok fetch_list, w1)
    /\ (dt_year (utcnow (ticks w)) < start_year -> fetch_list = [])
    /\ (fetch_list = [] ->
        exists w',
          main start_year end_year w = (Ok tt, w')
          /\ posts w' = posts w /\ files w' = files w
          /\ last (stdout w') = Some "No months to fetch data for.").
Proof.
  intros Hr. rewrite (create_fetch_list_valid _ _ w Hr). do 2 eexists.
  split; [reflexivity|]. split.
  - apply future_range_plans_nothing.
  - intros Hnil. rewrite main_after_folder.
    destruct (with_data_folder_frame w) as (Hf & Hp & _ & Ht).
    unfold bind at 1, try_except_ValueError. unfold bind at 1.
    rewrite (create_fetch_list_valid _ _ _ Hr). rewrite Ht, Hnil.
    eexists. split; [reflexivity|].
    cbn [snd print files posts stdout]. rewrite last_snoc. auto.
Qed.

(** ** Properties of the aggregation *)

(** The plan is walked from its last entry: once the entries after [entry]
    have been processed without a break, the loop stands at [entry]. *)
Lemma aggregate_loop_split earlier entry later w0 st w :
  iterates aggregate_step (rev later) initial_state w0 st w ->
  aggregate_loop (rev (earlier ++ entry :: later)) initial_state w0
  = aggregate_loop (entry :: rev earlier) st w.
Proof.
  intros Hit. rewrite rev_app_distr. cbn [rev]. rewrite <- app_assoc.
  unfold aggregate_loop. now rewrite (for_loop_iterates _ _ _ _ _ _ _ Hit).
Qed.

(** C1 (as amended). A resolved table with zero rows increments the counter
    of consecutive empty months and appends the label of its month; when the
    counter thereby reaches 5 the loop breaks at once: whatever entries remain,
    the loop ends in the state and the world of this very iteration, and so
    does [get_data_for_months] for every plan that leads the loop here. *)
Theorem zero_rows_counted_and_stop_at_five month year st w df w1 :
  load_or_fetch_data month year w = (Ok (Some df), w1) ->
  len df = 0 ->
  exists name,
    month_name month = Ok name /\
    let zero_months := consecutive_zero_months st ++ [name +:+ ", " +:+ pretty year] in
    let st' := mkLoopState (all_tables st) (consecutive_zero_rows st + 1) zero_months in
    (consecutive_zero_rows st + 1 <> 5 ->
     aggregate_step (month, year) st w
       = (Ok (Next st'), say (shape_line month year df) w1))
    /\ (consecutive_zero_rows st + 1 = 5 ->
        let w' := say "Data fetch aborted."
                    (say ("No data for consecutive 5 months: " +:+ join ", " zero_months)
                       (say (shape_line month year df) w1)) in
        aggregate_step (month, year) st w = (Ok (Break st'), w')
        /\ (forall rest, aggregate_loop ((month, year) :: rest) st w = (Ok st', w'))
        /\ (forall earlier later w0,
              iterates aggregate_step (rev later) initial_state w0 st w ->
              get_data_for_months (earlier ++ (month, year) :: later) w0
                = (pd_concat (all_tables st'), w'))).
Proof.
  intros Hl Hz. destruct (load_or_fetch_data_month_name _ _ _ _ _ Hl) as [name Hn].
  exists name. split; [assumption|]. intros zero_months st'.
  pose proof (aggregate_step_zero_rows month year st w df w1 name Hl Hz Hn) as Hs.
  cbv zeta in Hs. fold zero_months in Hs. fold st' in Hs. split.
  - intros Hne. rewrite Hs. now destruct (Z.eqb_spec (consecutive_zero_rows st + 1) 5).
  - intros He w'. rewrite He in Hs. cbn [Z.eqb Pos.eqb] in Hs. fold w' in Hs.
    assert (Hloop : forall rest, aggregate_loop ((month, year) :: rest) st w = (Ok st', w'))
      by (intros rest; now apply for_loop_break).
    repeat split; try assumption.
    intros earlier later w0 Hit. unfold get_data_for_months.
    unfold bind. now rewrite (aggregate_loop_split _ _ _ _ _ _ Hit), Hloop.
Qed.

(** C10. When the resolution of a plan entry is [None], the iteration raises
    [AttributeError] on [data_table.shape], before the test
    [data_table is not None]: it yields no next loop state, the loop and
    [get_data_for_months] raise with it, in the world the resolution left. *)
Theorem absent_result_raises_before_the_check month year st w w1 :
  load_or_fetch_data month year w = (Ok None, w1) ->
  let err := AttributeError "'NoneType' object has no attribute 'shape'" in
  aggregate_step (month, year) st w = (Raise err, w1)
  /\ (forall rest, aggregate_loop ((month, year) :: rest) st w = (Raise err, w1))
  /\ (forall earlier later w0,
        iterates aggregate_step (rev later) initial_state w0 st w ->
        get_data_for_months (earlier ++ (month, year) :: later) w0 = (Raise err, w1)).
Proof.
  intros Hl err. pose proof (aggregate_step_absent month year st w w1 Hl) as Hs.
  fold err in Hs.
  assert (Hloop : forall rest, aggregate_loop ((month, year) :: rest) st w = (Raise err, w1))
    by (intros rest; now apply for_loop_raise).
  repeat split; try assumption.
  intros earlier later w0 Hit. unfold get_data_for_months, bind.
  now rewrite (aggregate_loop_split _ _ _ _ _ _ Hit), Hloop.
Qed.

(** C4. When the loop ends, by exhaustion or by the early stop, with nothing
    collected, [get_data_for_months] raises the [ValueError] of [pd.concat];
    [main] does not catch it, so the run ends in the world the loop left: no
    combined output is written, and no file outside the cache folder differs
    from what it was when [main] started. *)
Theorem nothing_collected_is_an_error fetch_list w st w' :
  aggregate_loop (rev fetch_list) initial_state w = (Ok st, w') ->
  all_tables st = [] ->
  let err := ValueError "No objects to concatenate" in
  get_data_for_months fetch_list w = (Raise err, w')
  /\ (forall start_year end_year w0,
        create_fetch_list start_year end_year (with_data_folder w0) = (Ok fetch_list, w) ->
        fetch_list <> [] ->
        main start_year end_year w0 = (Raise err, w')
        /\ (forall path, ~ in_data_folder path -> files w' !! path = files w0 !! path)
        /\ files w' !! file_name_combined = files w0 !! file_name_combined).
Proof.
  intros Hloop Hnil err.
  assert (Hg : get_data_for_months fetch_list w = (Raise err, w')).
  { unfold get_data_for_months, bind. rewrite Hloop, Hnil. reflexivity. }
  split; [assumption|]. intros start_year end_year w0 Hplan Hne.
  assert (Hframe : forall path, ~ in_data_folder path -> files w' !! path = files w0 !! path).
  { intros path Hp.
    apply aggregate_loop_frame in Hloop as (_ & _ & Hf). rewrite (Hf _ Hp).
    destruct (with_data_folder_frame w0) as (Hf0 & _).
    destruct (Z.lt_ge_cases end_year start_year) as [Hr | Hr].
    - rewrite create_fetch_list_invalid in Hplan by assumption. discriminate.
    - rewrite create_fetch_list_valid in Hplan by lia.
      injection Hplan as _ <-. cbn [files]. now rewrite Hf0. }
  repeat split; try assumption.
  - rewrite main_after_folder. unfold bind at 1, try_except_ValueError.
    unfold bind at 1. rewrite Hplan. unfold ret at 1.
    destruct fetch_list as [|entry fetch_list]; [contradiction|].
    unfold bind at 1. now rewrite Hg.
  - apply Hframe. apply (combined_names_outside_data_folder ".parquet").
Qed.

(** C7. The plan [(1,2023), (2,2023), (3,2023)] with March and February
    resolving to empty tables and January to a table of ten rows: the counter
    goes 1, 2 and back to 0, no iteration breaks, the loop runs through the
    whole plan and ends with exactly the January table collected, and the
    result of [get_data_for_months] is its concatenation, of ten rows. *)
Theorem three_month_scenario w t3 w1 t2 w2 t1 w3 :
  load_or_fetch_data 3 2023 w = (Ok (Some t3), w1) -> len t3 = 0 ->
  load_or_fetch_data 2 2023 (say (shape_line 3 2023 t3) w1) = (Ok (Some t2), w2) ->
  len t2 = 0 ->
  load_or_fetch_data 1 2023 (say (shape_line 2 2023 t2) w2) = (Ok (Some t1), w3) ->
  len t1 = 10 ->
  let plan := [(1, 2023); (2, 2023); (3, 2023)] in
  let s1 := mkLoopState [] 1 ["March, 2023"] in
  let s2 := mkLoopState [] 2 ["March, 2023"; "February, 2023"] in
  let s3 := mkLoopState [t1] 0 [] in
  let w_end := say (shape_line 1 2023 t1) w3 in
  aggregate_step (3, 2023) initial_state w = (Ok (Next s1), say (shape_line 3 2023 t3) w1)
  /\ aggregate_step (2, 2023) s1 (say (shape_line 3 2023 t3) w1)
     = (Ok (Next s2), say (shape_line 2 2023 t2) w2)
  /\ aggregate_step (1, 2023) s2 (say (shape_line 2 2023 t2) w2) = (Ok (Next s3), w_end)
  /\ iterates aggregate_step (rev plan) initial_state w s3 w_end
  /\ aggregate_loop (rev plan) initial_state w = (Ok s3, w_end)
  /\ exists result_table,
       get_data_for_months plan w = (Ok result_table, w_end)
       /\ pd_concat [t1] = Ok result_table
       /\ len result_table = 10.
Proof.
  intros H3 L3 H2 L2 H1 L1 plan s1 s2 s3 w_end.
  assert (E3 : aggregate_step (3, 2023) initial_state w
               = (Ok (Next s1), say (shape_line 3 2023 t3) w1))
    by (now rewrite (aggregate_step_zero_rows 3 2023 _ _ _ _ "March" H3 L3)).
  assert (E2 : aggregate_step (2, 2023) s1 (say (shape_line 3 2023 t3) w1)
               = (Ok (Next s2), say (shape_line 2 2023 t2) w2))
    by (now rewrite (aggregate_step_zero_rows 2 2023 _ _ _ _ "February" H2 L2)).
  assert (E1 : aggregate_step (1, 2023) s2 (say (shape_line 2 2023 t2) w2)
               = (Ok (Next s3), w_end))
    by (rewrite (aggregate_step_rows 1 2023 _ _ _ _ H1); [reflexivity | lia]).
  assert (Hit : iterates aggregate_step (rev plan) initial_state w s3 w_end)
    by (repeat (econstructor; [eassumption|]); constructor).
  assert (Hloop : aggregate_loop (rev plan) initial_state w = (Ok s3, w_end)).
  { unfold aggregate_loop.
    rewrite <- (app_nil_r (rev plan)), (for_loop_iterates _ _ _ _ _ _ _ Hit).
    reflexivity. }
  repeat split; try assumption.
  destruct (pd_concat [t1]) as [result_table|e] eqn:Hc; [|discriminate].
  exists result_table. repeat split.
  - unfold get_data_for_months, bind. rewrite Hloop. cbn [all_tables s3].
    unfold lift. now rewrite Hc.
  - rewrite (pd_concat_len _ _ Hc). cbn [foldr]. lia.
Qed.

(** ** Properties of the cache and of the fetch *)

Lemma to_parquet_cache month year df w :
  DATA_FOLDER ∈ dirs w ->
  cache_path month year ∉ dirs w ->
  to_parquet df (cache_path month year) w
  = (Ok tt, mkWorld (<[cache_path month year := parquet_image df]> (files w))
                    (dirs w) (posts w) (stdout w) (ticks w)).
Proof.
  intros Hfolder Hpath. unfold to_parquet. rewrite cache_path_parent.
  rewrite (bool_decide_eq_false_2 _ Hpath), (bool_decide_eq_true_2 _ Hfolder).
  now rewrite orb_true_r.
Qed.

Lemma to_parquet_without_folder month year df w :
  DATA_FOLDER ∉ dirs w ->
  to_parquet df (cache_path month year) w = (Raise (OSError (cache_path month year)), w).
Proof.
  intros Hfolder. unfold to_parquet. rewrite cache_path_parent.
  destruct (bool_decide (cache_path month year ∈ dirs w)); [reflexivity|].
  rewrite (bool_decide_eq_false_2 _ Hfolder).
  rewrite bool_decide_eq_false_2 by discriminate. reflexivity.
Qed.

(** C5 (as amended). With the data folder present, no cache file for
    [(month, year)] and a first remote fetch that succeeds with table [df]:
    the first call writes the table to the month's cache file and returns
    [df]; the second call sends nothing and returns the table read back from
    that file, which is [df] again whenever the parquet round trip gives [df]
    back.  Over the two calls exactly one request has been sent. *)
Theorem second_resolve_is_served_from_cache month year w df w1 :
  DATA_FOLDER ∈ dirs w ->
  files w !! cache_path month year = None ->
  cache_path month year ∉ dirs w ->
  get_data_table month year w = (Ok (Some df), w1) ->
  exists w1' w2,
    load_or_fetch_data month year w = (Ok (Some df), w1')
    /\ files w1' = <[cache_path month year := parquet_image df]> (files w)
    /\ load_or_fetch_data month year w1' = (Ok (Some (parquet_image df)), w2)
    /\ (parquet_image df = df -> load_or_fetch_data month year w1' = (Ok (Some df), w2))
    /\ files w2 = files w1'
    /\ posts w2 = posts w1'
    /\ exists req, posts w2 = posts w ++ [req].
Proof.
  intros Hfolder Hf Hd Hg.
  destruct (get_data_table_frame _ _ _ _ _ Hg) as (Hfiles & Hdirs & _).
  destruct (get_data_table_one_post _ _ _ _ _ Hg) as [req Hreq].
  assert (Hfirst : load_or_fetch_data month year w
                   = (Ok (Some df),
                      mkWorld (<[cache_path month year := parquet_image df]> (files w1))
                              (dirs w1) (posts w1) (stdout w1) (ticks w1))).
  { rewrite load_or_fetch_data_miss, Hg by assumption.
    now rewrite to_parquet_cache by (rewrite Hdirs; assumption). }
  destruct (load_or_fetch_data_month_name _ _ _ _ _ Hfirst) as [name Hn].
  assert (Hsecond : forall t,
             parquet_image df = t ->
             load_or_fetch_data month year
               (mkWorld (<[cache_path month year := parquet_image df]> (files w1))
                        (dirs w1) (posts w1) (stdout w1) (ticks w1))
             = (Ok (Some t),
                say ("Loading data for " +:+ name +:+ ", " +:+ pretty year
                     +:+ " from " +:+ cache_path month year)
                  (mkWorld (<[cache_path month year := parquet_image df]> (files w1))
                           (dirs w1) (posts w1) (stdout w1) (ticks w1)))).
  { intros t <-. apply load_or_fetch_data_hit; [|exact Hn]. cbn [files].
    apply lookup_insert_eq. }
  do 2 eexists. split; [exact Hfirst|]. cbn [files].
  split; [now rewrite Hfiles|]. split; [now apply Hsecond|].
  split; [exact (Hsecond df)|]. cbn [say print snd files posts]. eauto.
Qed.

(** C6. When the site answers the request for [(month, year)] with a status
    other than 200, [get_data_table] does not raise: it returns [None], having
    sent that one request and printed the failure; no file is written, and on
    a cache miss [load_or_fetch_data] hands the same [None] to its caller. *)
Theorem non_200_yields_absent month year w name resp :
  1 <= month <= 12 ->
  month_name month = Ok name ->
  server (posts w) (payload_for name year) = Ok resp ->
  status_code resp <> 200 ->
  exists w',
    get_data_table month year w = (Ok None, w')
    /\ posts w' = posts w ++ [payload_for name year]
    /\ files w' = files w
    /\ last (stdout w')
       = Some ("Failed to fetch data for " +:+ capitalize name +:+ ", " +:+ pretty year
               +:+ " with status code: " +:+ pretty (status_code resp))
    /\ (files w !! cache_path month year = None ->
        cache_path month year ∉ dirs w ->
        load_or_fetch_data month year w = (Ok None, w')).
Proof.
  intros Hm Hn Hs Hc.
  pose proof (get_data_table_non_200 month year w name resp Hm Hn Hs Hc) as Hg.
  eexists. split; [exact Hg|]. cbn [posts files stdout]. rewrite last_snoc.
  repeat split. intros Hf Hd. now rewrite load_or_fetch_data_miss, Hg.
Qed.

(** ** The combined output *)

Lemma append_assoc (s1 s2 s3 : string) : (s1 +:+ s2) +:+ s3 = s1 +:+ s2 +:+ s3.
Proof.
  induction s1 as [|c s1 IH]; [reflexivity|].
  change (String c (s1 +:+ s2) +:+ s3 = String c (s1 +:+ s2 +:+ s3)).
  change (String c ((s1 +:+ s2) +:+ s3) = String c (s1 +:+ s2 +:+ s3)).
  now rewrite IH.
Qed.

(** The name [main] builds from the stem and the formatted time. *)
Lemma stamped_name_built t :
  "historic_rate_data_bd_banks_combined" +:+ strftime_stamp t +:+ ".parquet"
  = stamped_name t.
Proof.
  unfold strftime_stamp, stamped_name. rewrite !append_assoc. reflexivity.
Qed.

Lemma zeros_occurs c k :
  c <> "0"%char -> occurs c (String.concat "" (replicate k "0")) = false.
Proof.
  intros Hc. induction k as [|k IH]; [reflexivity|].
  replace (String.concat "" (replicate (S k) "0"))
    with (String "0" (String.concat "" (replicate k "0")))
    by (destruct k; reflexivity).
  cbn [occurs]. rewrite bool_decide_eq_false_2 by congruence. exact IH.
Qed.

Lemma zero_pad_occurs c width n :
  (forall d, pretty_N_char d <> c) -> c <> "-"%char \/ 0 <= n ->
  occurs c (zero_pad width n) = false.
Proof.
  intros Hc Hn. unfold zero_pad. rewrite occurs_app, zeros_occurs.
  - destruct Hn as [Hdash | Hpos]; [now apply pretty_Z_occurs|].
    destruct n as [|p|p]; [| |lia].
    + cbn. rewrite orb_false_r. apply bool_decide_eq_false_2.
      intros E. now apply (Hc 0%N).
    + unfold pretty, pretty_Z, pretty, pretty_positive, pretty, pretty_N.
      rewrite decide_False by discriminate. now apply pretty_N_go_occurs.
  - intros E. now apply (Hc 0%N).
Qed.

Lemma pretty_nonneg_occurs c n :
  (forall d, pretty_N_char d <> c) -> 0 <= n -> occurs c (pretty n) = false.
Proof.
  intros Hc Hn. destruct n as [|p|p]; [| |lia].
  - cbn. rewrite orb_false_r. apply bool_decide_eq_false_2.
    intros E. now apply (Hc 0%N).
  - unfold pretty, pretty_Z, pretty, pretty_positive, pretty, pretty_N.
    rewrite decide_False by discriminate. now apply pretty_N_go_occurs.
Qed.

Lemma two_digit_texts_differ :
  NoDup ((fun i => zero_pad 2 (Z.of_nat i)) <$> seq 0 100).
Proof. apply (bool_decide_unpack _). vm_compute. reflexivity. Qed.

Lemma zero_pad_2_inj n m :
  0 <= n <= 99 -> 0 <= m <= 99 -> zero_pad 2 n = zero_pad 2 m -> n = m.
Proof.
  intros Hn Hm E.
  assert (Hl : forall k, 0 <= k <= 99 ->
             ((fun i => zero_pad 2 (Z.of_nat i)) <$> seq 0 100) !! Z.to_nat k
             = Some (zero_pad 2 k)).
  { intros k Hk. rewrite list_lookup_fmap, lookup_seq_lt by lia.
    cbn. now rewrite Z2Nat.id by lia. }
  pose proof (Hl n Hn) as Hi. rewrite E in Hi.
  pose proof (NoDup_lookup _ _ _ _ two_digit_texts_differ Hi (Hl m Hm)). lia.
Qed.

Lemma stamped_name_inj t1 t2 :
  valid_datetime t1 -> valid_datetime t2 ->
  stamped_name t1 = stamped_name t2 -> t1 = t2.
Proof.
  destruct t1 as [y1 mo1 d1 h1 mi1 s1], t2 as [y2 mo2 d2 h2 mi2 s2].
  unfold valid_datetime, stamped_name. cbn [dt_year dt_month dt_day dt_hour dt_minute dt_second].
  intros (Hy1 & Hmo1 & Hd1 & Hh1 & Hmi1 & Hs1) (Hy2 & Hmo2 & Hd2 & Hh2 & Hmi2 & Hs2) E.
  apply (inj (String.append "historic_rate_data_bd_banks_combined_")) in E.
  apply (cut_at_first "-"%char) in E as [Ey E];
    [|apply pretty_nonneg_occurs; [apply not_a_digit_dash | lia]..].
  apply (cut_at_first "-"%char) in E as [Emo E];
    [|apply zero_pad_occurs; [apply not_a_digit_dash | right; lia]..].
  apply (cut_at_first "_"%char) in E as [Ed E];
    [|apply zero_pad_occurs; [apply not_a_digit_underscore | left; discriminate]..].
  apply (cut_at_first "-"%char) in E as [Eh E];
    [|apply zero_pad_occurs; [apply not_a_digit_dash | right; lia]..].
  apply (cut_at_first "-"%char) in E as [Emi E];
    [|apply zero_pad_occurs; [apply not_a_digit_dash | right; lia]..].
  apply (cut_at_first "_"%char _ _ "GMT.parquet" "GMT.parquet") in E as [Es _];
    [|apply zero_pad_occurs; [apply not_a_digit_underscore | left; discriminate]..].
  apply (inj pretty) in Ey. apply zero_pad_2_inj in Emo, Ed, Eh, Emi, Es; try lia.
  congruence.
Qed.

Lemma stamped_name_differs t : stamped_name t <> file_name_combined.
Proof. unfold stamped_name, file_name_combined. discriminate. Qed.

Lemma stamped_name_bare t : occurs "/" (stamped_name t) = false.
Proof.
  unfold stamped_name.
  rewrite !occurs_app, pretty_Z_occurs, !zero_pad_occurs
    by (try apply not_a_digit_slash; try left; discriminate).
  reflexivity.
Qed.

Lemma to_parquet_bare df path w :
  occurs "/" path = false ->
  path ∉ dirs w ->
  to_parquet df path w
  = (Ok tt, mkWorld (<[path := parquet_image df]> (files w)) (dirs w) (posts w)
                    (stdout w) (ticks w)).
Proof.
  intros Hbare Hpath. unfold to_parquet. rewrite (parent_of_bare _ Hbare).
  rewrite (bool_decide_eq_false_2 _ Hpath). reflexivity.
Qed.

(** C9. When [main] has its result and finds
    ['historic_rate_data_bd_banks_combined.parquet'] already present, it
    reads the UTC clock once and writes the result under the stamped name:
    the stem, then the year, month and day and the hour, minute and second of
    that reading as [_Y-mm-dd_HH-MM-SS_GMT], then the extension (the stamped
    name must not itself be a directory).  That name differs from the plain
    one, whose file is left as it was, and names stamped with different dates
    and times differ. *)
Theorem existing_output_is_not_overwritten
    start_year end_year w fetch_list w1 result_table w2 :
  create_fetch_list start_year end_year (with_data_folder w) = (Ok fetch_list, w1) ->
  fetch_list <> [] ->
  get_data_for_months fetch_list w1 = (Ok result_table, w2) ->
  is_Some (files w2 !! file_name_combined) \/ file_name_combined ∈ dirs w2 ->
  let file_name := stamped_name (utcnow (ticks w2)) in
  file_name ∉ dirs w2 ->
  exists w',
    main start_year end_year w = (Ok tt, w')
    /\ file_name <> file_name_combined
    /\ files w' = <[file_name := parquet_image result_table]> (files w2)
    /\ files w' !! file_name_combined = files w2 !! file_name_combined
    /\ ticks w' = S (ticks w2)
    /\ last (stdout w') = Some ("Result table saved as " +:+ file_name)
    /\ (forall t1 t2, valid_datetime t1 -> valid_datetime t2 ->
                      stamped_name t1 = stamped_name t2 -> t1 = t2).
Proof.
  intros Hplan Hne Hg Hex file_name Hfree.
  assert (Hdiff : file_name <> file_name_combined) by apply stamped_name_differs.
  assert (Htaken : path_exists file_name_combined w2 = (Ok true, w2)).
  { unfold path_exists. f_equal. f_equal. apply orb_true_iff.
    destruct Hex; [left | right]; now apply bool_decide_eq_true_2. }
  rewrite main_after_folder. unfold bind at 1, try_except_ValueError.
  unfold bind at 1. rewrite Hplan. unfold ret at 1.
  destruct fetch_list as [|entry fetch_list]; [contradiction|].
  unfold bind at 1. rewrite Hg. unfold bind at 1. rewrite Htaken.
  unfold bind at 1. unfold bind at 1. unfold datetime_now at 1.
  change (py_index (split file_name_combined ".parquet") 0)
    with (Ok (A:=string) "historic_rate_data_bd_banks_combined").
  unfold bind at 1, lift at 1, ret at 1.
  rewrite stamped_name_built. fold file_name.
  unfold bind at 1. rewrite to_parquet_bare by (apply stamped_name_bare || exact Hfree).
  eexists. split; [reflexivity|].
  cbn [snd fst files stdout ticks print]. rewrite last_snoc.
  repeat split; try assumption.
  - now rewrite lookup_insert_ne.
  - apply stamped_name_inj.
Qed.

End Properties.

(** ** The properties on the sample environment *)

Lemma create_fetch_list_rejects_reversed_range_witness :
  2023 < 2024
  /\ @create_fetch_list demo_env 2024 2023 empty_world
     = (Raise (ValueError "End year cannot be smaller than start year."), empty_world).
Proof.
  split; [lia|].
  apply (@create_fetch_list_rejects_reversed_range demo_env 2024 2023 empty_world). lia.
Defined.

Lemma plan_never_beyond_current_month_witness :
  2022 <= 2023
  /\ exists fetch_list w',
       @create_fetch_list demo_env 2022 2023 empty_world = (Ok fetch_list, w')
       /\ forall month year,
            In (month, year) fetch_list -> ~ strictly_later year month 2023 3.
Proof.
  split; [lia|].
  apply (@plan_never_beyond_current_month demo_env 2022 2023 empty_world). lia.
Defined.

Lemma empty_plan_is_a_no_op_witness :
  2024 <= 2025
  /\ exists w',
       @main demo_env 2024 2025 empty_world = (Ok tt, w')
       /\ posts w' = [] /\ files w' = ∅
       /\ last (stdout w') = Some "No months to fetch data for.".
Proof.
  split; [lia|].
  destruct (@empty_plan_is_a_no_op demo_env 2024 2025 empty_world ltac:(lia))
    as (fetch_list & w1 & _ & Hfuture & Hmain).
  exact (Hmain (Hfuture eq_refl)).
Defined.

Lemma absent_result_is_not_counted :
  fst (@load_or_fetch_data demo_env 6 2022 empty_world) = Ok None
  /\ (forall c, fst (@aggregate_step demo_env (6, 2022) initial_state empty_world) <> Ok c)
  /\ fst (@get_data_for_months demo_env [(6, 2022)] empty_world)
     = Raise (AttributeError "'NoneType' object has no attribute 'shape'").
Proof.
  split; [vm_compute; reflexivity|]. split; [|vm_compute; reflexivity].
  intros c. vm_compute. discriminate.
Qed.

Lemma zero_rows_counted_and_stop_at_five_witness :
  let df := mkDataFrame [["Bank"]; ["Rate"]; month_year_label] [] in
  let w1 := snd (@load_or_fetch_data demo_env 2 2022 fresh_world) in
  @load_or_fetch_data demo_env 2 2022 fresh_world = (Ok (Some df), w1)
  /\ len df = 0
  /\ fst (@aggregate_loop demo_env [(2, 2022); (1, 2022)] four_empty_months fresh_world)
     = Ok (mkLoopState [] 5 ["July, 2022"; "May, 2022"; "April, 2022"; "March, 2022";
                             "February, 2022"]).
Proof.
  intros df w1.
  assert (H1 : @load_or_fetch_data demo_env 2 2022 fresh_world = (Ok (Some df), w1))
    by (vm_compute; reflexivity).
  assert (H2 : len df = 0) by reflexivity.
  split; [exact H1|]. split; [exact H2|].
  destruct (@zero_rows_counted_and_stop_at_five demo_env 2 2022 four_empty_months
              fresh_world df w1 H1 H2) as (name & Hn & _ & Hbreak).
  injection Hn as <-.
  destruct (Hbreak eq_refl) as (_ & Hloop & _).
  rewrite Hloop. reflexivity.
Defined.

Lemma absent_result_raises_before_the_check_witness :
  let w1 := snd (@load_or_fetch_data demo_env 6 2022 empty_world) in
  @load_or_fetch_data demo_env 6 2022 empty_world = (Ok None, w1)
  /\ @get_data_for_months demo_env [(5, 2022); (6, 2022)] empty_world
     = (Raise (AttributeError "'NoneType' object has no attribute 'shape'"), w1).
Proof.
  intros w1.
  assert (H1 : @load_or_fetch_data demo_env 6 2022 empty_world = (Ok None, w1))
    by (vm_compute; reflexivity).
  split; [exact H1|].
  destruct (@absent_result_raises_before_the_check demo_env 6 2022 initial_state
              empty_world w1 H1) as (_ & _ & Hwhole).
  apply (Hwhole [(5, 2022)] [] empty_world). constructor.
Defined.

Lemma nothing_collected_is_an_error_witness :
  let fetch_list := [(2, 2022); (3, 2022); (4, 2022); (5, 2022); (7, 2022)] in
  let st := mkLoopState [] 5 ["July, 2022"; "May, 2022"; "April, 2022"; "March, 2022";
                              "February, 2022"] in
  let w' := snd (@aggregate_loop demo_env (rev fetch_list) initial_state fresh_world) in
  @aggregate_loop demo_env (rev fetch_list) initial_state fresh_world = (Ok st, w')
  /\ all_tables st = []
  /\ @get_data_for_months demo_env fetch_list fresh_world
     = (Raise (ValueError "No objects to concatenate"), w').
Proof.
  intros fetch_list st w'.
  assert (H1 : @aggregate_loop demo_env (rev fetch_list) initial_state fresh_world
               = (Ok st, w')) by (vm_compute; reflexivity).
  split; [exact H1|]. split; [reflexivity|].
  apply (@nothing_collected_is_an_error demo_env fetch_list fresh_world st w' H1 eq_refl).
Defined.

Lemma three_month_scenario_witness :
  let empty_table := mkDataFrame [["Bank"]; ["Rate"]; month_year_label] [] in
  let w1 := snd (@load_or_fetch_data demo_env 3 2023 fresh_world) in
  let w2 := snd (@load_or_fetch_data demo_env 2 2023
                   (say (shape_line 3 2023 empty_table) w1)) in
  let r1 := @load_or_fetch_data demo_env 1 2023
              (say (shape_line 2 2023 empty_table) w2) in
  exists january,
    fst r1 = Ok (Some january)
    /\ len january = 10
    /\ exists result_table,
         fst (@get_data_for_months demo_env [(1, 2023); (2, 2023); (3, 2023)] fresh_world)
           = Ok result_table
         /\ len result_table = 10.
Proof.
  intros empty_table w1 w2 r1.
  set (january := set_column month_year_label (Timestamp 2023 1 31) (sample_table 10)).
  assert (H3 : @load_or_fetch_data demo_env 3 2023 fresh_world = (Ok (Some empty_table), w1))
    by (vm_compute; reflexivity).
  assert (H2 : @load_or_fetch_data demo_env 2 2023 (say (shape_line 3 2023 empty_table) w1)
               = (Ok (Some empty_table), w2)) by (vm_compute; reflexivity).
  assert (H1 : r1 = (Ok (Some january), snd r1)) by (vm_compute; reflexivity).
  exists january. split; [now rewrite H1|]. split; [reflexivity|].
  destruct (@three_month_scenario demo_env fresh_world empty_table w1 empty_table w2
              january (snd r1) H3 eq_refl H2 eq_refl H1 eq_refl)
    as (_ & _ & _ & _ & _ & result_table & Hrun & _ & Hlen).
  exists result_table. split; [now rewrite Hrun | exact Hlen].
Defined.

Lemma fresh_world_folder : DATA_FOLDER ∈ dirs fresh_world.
Proof. cbn [fresh_world dirs]. now apply elem_of_singleton_2. Qed.

Lemma fresh_world_no_cache_folder month year : cache_path month year ∉ dirs fresh_world.
Proof. cbn [fresh_world dirs]. intros H%elem_of_singleton_1. discriminate H. Qed.

Lemma reread_table_differs_from_fetched :
  let fetched := set_column month_year_label (Timestamp 2023 1 31) (sample_table 10) in
  let reread := mkDataFrame [["Bank"]; ["Rate"]; ["('month_year', 'month_year')"]]
                            (rows fetched) in
  let first := @load_or_fetch_data demo_env 1 2023 fresh_world in
  let second := @load_or_fetch_data demo_env 1 2023 (snd first) in
  fst first = Ok (Some fetched)
  /\ fst second = Ok (Some reread)
  /\ fetched <> reread
  /\ posts (snd second) = posts (snd first)
  /\ @load_or_fetch_data demo_env 1 2023 empty_world
     = (Raise (OSError "bd_bank_historical_interest_rate_data/1_2023.parquet"),
        snd (@get_data_table demo_env 1 2023 empty_world)).
Proof.
  intros fetched reread first second.
  split; [vm_compute; reflexivity|]. split; [vm_compute; reflexivity|].
  split; [discriminate|]. split; vm_compute; reflexivity.
Qed.

Lemma second_resolve_is_served_from_cache_witness :
  let january := set_column month_year_label (Timestamp 2023 1 31) (sample_table 10) in
  let first := @load_or_fetch_data demo_env 1 2023 fresh_world in
  let second := @load_or_fetch_data demo_env 1 2023 (snd first) in
  DATA_FOLDER ∈ dirs fresh_world
  /\ fst (@get_data_table demo_env 1 2023 fresh_world) = Ok (Some january)
  /\ fst first = Ok (Some january)
  /\ fst second = Ok (Some (demo_parquet_image january))
  /\ length (posts (snd second)) = 1%nat.
Proof.
  intros january first second.
  assert (Hg : @get_data_table demo_env 1 2023 fresh_world
               = (Ok (Some january), snd (@get_data_table demo_env 1 2023 fresh_world)))
    by (vm_compute; reflexivity).
  split; [exact fresh_world_folder|]. split; [now rewrite Hg|].
  destruct (@second_resolve_is_served_from_cache demo_env 1 2023 fresh_world january _
              fresh_world_folder (lookup_empty _) (fresh_world_no_cache_folder 1 2023) Hg)
    as (w1' & w2 & Hfirst & _ & Hsecond & _ & _ & _ & req & Hposts).
  subst first second. rewrite Hfirst. cbn [fst snd]. rewrite Hsecond. cbn [fst snd].
  rewrite Hposts. repeat split.
Defined.

Lemma non_200_yields_absent_witness :
  1 <= 6 <= 12
  /\ month_name 6 = Ok "June"
  /\ @server demo_env [] (payload_for "June" 2023) = Ok (mkResponse 404 "")
  /\ 404 <> 200
  /\ fst (@get_data_table demo_env 6 2023 empty_world) = Ok None
  /\ fst (@load_or_fetch_data demo_env 6 2023 empty_world) = Ok None.
Proof.
  assert (Hm : 1 <= 6 <= 12) by lia.
  assert (Hc : 404 <> 200) by lia.
  destruct (@non_200_yields_absent demo_env 6 2023 empty_world "June" (mkResponse 404 "")
              Hm eq_refl eq_refl Hc) as (w' & Hg & _ & _ & _ & Hl).
  split; [exact Hm|]. split; [reflexivity|]. split; [reflexivity|].
  split; [exact Hc|]. split.
  - now rewrite Hg.
  - rewrite Hl; [reflexivity | apply lookup_empty | apply not_elem_of_empty].
Defined.

Lemma existing_output_is_not_overwritten_witness :
  let plan := [(1, 2023); (2, 2023); (3, 2023)] in
  let planned := @create_fetch_list demo_env 2023 2023 (with_data_folder second_run_world) in
  let fetched := @get_data_for_months demo_env plan (snd planned) in
  let final := snd (@main demo_env 2023 2023 second_run_world) in
  fst planned = Ok plan
  /\ files (snd fetched) !! file_name_combined = Some (sample_table 1)
  /\ files final !! file_name_combined = Some (sample_table 1)
  /\ is_Some (files final
              !! "historic_rate_data_bd_banks_combined_2023-03-15_10-20-30_GMT.parquet").
Proof.
  intros plan planned fetched final.
  assert (Hp : planned = (Ok plan, snd planned)) by (vm_compute; reflexivity).
  set (january := set_column month_year_label (Timestamp 2023 1 31) (sample_table 10)).
  assert (Hf : fetched = (Ok january, snd fetched)) by (vm_compute; reflexivity).
  assert (Hold : files (snd fetched) !! file_name_combined = Some (sample_table 1))
    by (vm_compute; reflexivity).
  assert (Hfree : stamped_name (@utcnow demo_env (ticks (snd fetched)))
                  ∉ dirs (snd fetched)).
  { apply (bool_decide_eq_false_1
             (stamped_name (@utcnow demo_env (ticks (snd fetched))) ∈ dirs (snd fetched))).
    vm_compute. reflexivity. }
  split; [now rewrite Hp|]. split; [exact Hold|].
  destruct (@existing_output_is_not_overwritten demo_env 2023 2023 second_run_world
              plan (snd planned) january (snd fetched) Hp ltac:(discriminate) Hf
              (or_introl (ex_intro _ _ Hold)) Hfree)
    as (w' & Hrun & _ & Hfiles & Hkeep & _).
  subst final. rewrite Hrun. cbn [snd]. split.
  - now rewrite Hkeep.
  - rewrite Hfiles. exists (demo_parquet_image january). vm_compute. reflexivity.
Defined.

(** * Further properties *)

Section FetchProperties.
Context `{env : Environment}.

(** ** Columns *)

Lemma index_of_some lbl cs i :
  index_of lbl cs = Some i -> (i < length cs)%nat.
Proof.
  revert i. induction cs as [|c cs IH]; intros i; simpl; [discriminate|].
  destruct (decide (c = lbl)).
  - intros [= <-]. lia.
  - destruct (index_of lbl cs) as [j|]; simpl; [|discriminate].
    intros [= <-]. specialize (IH j eq_refl). lia.
Qed.

Lemma index_of_appended lbl cs :
  index_of lbl cs = None -> index_of lbl (cs ++ [lbl]) = Some (length cs).
Proof.
  induction cs as [|c cs IH]; simpl.
  - intros _. now rewrite decide_True.
  - destruct (decide (c = lbl)); [discriminate|].
    destruct (index_of lbl cs); simpl; [discriminate|].
    intros _. now rewrite IH.
Qed.

Lemma set_column_len lbl v df : len (set_column lbl v df) = len df.
Proof.
  unfold set_column, len. destruct (index_of lbl (columns df)); cbn [rows];
    now rewrite length_map.
Qed.

Lemma set_column_well_formed lbl v df :
  well_formed df -> well_formed (set_column lbl v df).
Proof.
  unfold well_formed, set_column. rewrite !List.Forall_forall. intros Hwf.
  destruct (index_of lbl (columns df)) as [i|]; cbn [rows columns];
    intros r Hin; apply in_map_iff in Hin as (r0 & <- & Hr0).
  - rewrite length_insert. now apply Hwf.
  - rewrite !length_app, (Hwf r0 Hr0). reflexivity.
Qed.

Lemma set_column_cells lbl v df r :
  well_formed df ->
  In r (rows (set_column lbl v df)) ->
  cell_at lbl (set_column lbl v df) r = Some v.
Proof.
  unfold well_formed, set_column, cell_at. rewrite List.Forall_forall. intros Hwf.
  destruct (index_of lbl (columns df)) as [i|] eqn:Hi; cbn [rows columns].
  - rewrite Hi. intros Hin. apply in_map_iff in Hin as (r0 & <- & Hr0).
    apply list_lookup_insert_eq. rewrite (Hwf r0 Hr0).
    now apply index_of_some in Hi.
  - rewrite (index_of_appended _ _ Hi). intros Hin.
    apply in_map_iff in Hin as (r0 & <- & Hr0).
    rewrite <- (Hwf r0 Hr0). rewrite lookup_app_r by lia. now rewrite Nat.sub_diag.
Qed.

(** ** The calendar *)

Lemma month_name_capitalized month name :
  1 <= month <= 12 -> month_name month = Ok name -> capitalize name = name.
Proof.
  intros Hm.
  assert (Hc : month = 1 \/ month = 2 \/ month = 3 \/ month = 4 \/ month = 5
               \/ month = 6 \/ month = 7 \/ month = 8 \/ month = 9 \/ month = 10
               \/ month = 11 \/ month = 12) by lia.
  repeat (destruct Hc as [-> | Hc]; [intros [= <-]; reflexivity|]).
  subst. intros [= <-]. reflexivity.
Qed.

Lemma monthrange_days_bounds year month d :
  monthrange_days year month = Ok d -> 28 <= d <= 31.
Proof.
  unfold monthrange_days.
  destruct ((1 <=? month) && (month <=? 12)) eqn:Hm; [|discriminate].
  apply andb_true_iff in Hm as [H1 H2]. apply Z.leb_le in H1, H2.
  assert (Hc : month = 1 \/ month = 2 \/ month = 3 \/ month = 4 \/ month = 5
               \/ month = 6 \/ month = 7 \/ month = 8 \/ month = 9 \/ month = 10
               \/ month = 11 \/ month = 12) by lia.
  intros [= <-]. generalize (isleap year) as leap. intros leap.
  repeat (destruct Hc as [-> | Hc]; [destruct leap; compute; split; discriminate|]).
  subst. destruct leap; compute; split; discriminate.
Qed.

(** A fetch answered with status 200 and a page holding at least one table,
    when [pd.to_datetime] reads the text year-mm-dd of the last day of the
    requested month (a day between 28 and 31) as [date]: the first table is
    returned with as many rows as it had and [date] in every row under the
    label [('month_year', 'month_year')].  One request has been sent, with
    the month name, the year in decimal and the ['Search'] marker; no file
    has been written. *)
Theorem get_data_table_success month year w name resp t tables d date :
  1 <= month <= 12 ->
  month_name month = Ok name ->
  server (posts w) (payload_for name year) = Ok resp ->
  status_code resp = 200 ->
  read_html (text resp) = Ok (t :: tables) ->
  well_formed t ->
  monthrange_days year month = Ok d ->
  to_datetime (pretty year +:+ "-" +:+ zero_pad 2 month +:+ "-" +:+ pretty d) = Ok date ->
  28 <= d <= 31
  /\ exists df w',
       get_data_table month year w = (Ok (Some df), w')
       /\ len df = len t
       /\ well_formed df
       /\ (forall r, In r (rows df) -> cell_at month_year_label df r = Some date)
       /\ posts w' = posts w ++ [mkRequest fetch_url name (pretty year) "Search"]
       /\ files w' = files w.
Proof.
  intros Hm Hn Hs Hc Hr Hwf Hd Hdate.
  split; [apply (monthrange_days_bounds _ _ _ Hd)|].
  exists (set_column month_year_label date t). eexists. split.
  - unfold get_data_table, bind, lift, requests_post. rewrite Hn, Hd.
    fold (payload_for name year). rewrite Hs, Hc. cbn [Z.eqb Pos.eqb].
    unfold print. rewrite Hr. cbn [py_index]. rewrite Hdate. reflexivity.
  - cbn [posts files]. unfold payload_for.
    rewrite (month_name_capitalized _ _ Hm Hn).
    repeat split; eauto using set_column_len, set_column_well_formed, set_column_cells.
Qed.

(** When [pd.to_datetime] raises on the date text, as it does for a year
    that is not written with four digits, the exception leaves
    [get_data_table] after the request has been sent and
    ['Data fetched for ...'] printed, and [load_or_fetch_data] caches
    nothing. *)
Theorem unread_date_raises month year w name resp t tables d e :
  1 <= month <= 12 ->
  month_name month = Ok name ->
  server (posts w) (payload_for name year) = Ok resp ->
  status_code resp = 200 ->
  read_html (text resp) = Ok (t :: tables) ->
  monthrange_days year month = Ok d ->
  to_datetime (pretty year +:+ "-" +:+ zero_pad 2 month +:+ "-" +:+ pretty d) = Raise e ->
  let w' := mkWorld (files w) (dirs w) (posts w ++ [payload_for name year])
                    (stdout w ++ ["Data fetched for " +:+ capitalize name +:+ ", "
                                  +:+ pretty year])
                    (ticks w) in
  get_data_table month year w = (Raise e, w')
  /\ (files w !! cache_path month year = None ->
      cache_path month year ∉ dirs w ->
      load_or_fetch_data month year w = (Raise e, w')).
Proof.
  intros Hm Hn Hs Hc Hr Hd Hdate w'.
  assert (Hg : get_data_table month year w = (Raise e, w')).
  { unfold get_data_table, bind, lift, requests_post. rewrite Hn, Hd.
    fold (payload_for name year). rewrite Hs, Hc. cbn [Z.eqb Pos.eqb].
    unfold print. rewrite Hr. cbn [py_index]. now rewrite Hdate. }
  split; [exact Hg|]. intros Hf Hdir. now rewrite load_or_fetch_data_miss, Hg.
Qed.

Lemma py_index_unfit {A} (l : list A) i :
  i < - 2 ^ 63 \/ 2 ^ 63 - 1 < i ->
  py_index l i = Raise (IndexError "cannot fit 'int' into an index-sized integer").
Proof.
  intros Hi. unfold py_index.
  replace ((i <? - 2 ^ 63) || (2 ^ 63 - 1 <? i)) with true; [reflexivity|].
  symmetry. apply orb_true_iff. rewrite !Z.ltb_lt. exact Hi.
Qed.

Lemma py_index_out_of_range {A} (l : list A) i :
  - 2 ^ 63 <= i <= 2 ^ 63 - 1 ->
  i < - Z.of_nat (length l) \/ Z.of_nat (length l) <= i ->
  py_index l i = Raise (IndexError "list index out of range").
Proof.
  intros Hfit Hi. unfold py_index.
  replace ((i <? - 2 ^ 63) || (2 ^ 63 - 1 <? i)) with false
    by (symmetry; apply orb_false_iff; rewrite !Z.ltb_ge; lia).
  destruct (Z.leb_spec 0 i).
  - destruct (Z.ltb_spec i (Z.of_nat (length l))); [lia|]. now rewrite andb_false_r.
  - destruct (Z.leb_spec 0 (Z.of_nat (length l) + i)); [lia | reflexivity].
Qed.

(** A month outside 1..12 makes [get_data_table] raise before any request
    is sent: [IllegalMonthError] from [calendar.monthrange] for -13..0, which
    [calendar.month_name] still indexes; [IndexError] from [calendar.month_name]
    otherwise, for a list index out of range, or for an index that does not
    fit the machine index type. *)
Theorem get_data_table_bad_month month year w :
  month < 1 \/ 12 < month ->
  exists e,
    get_data_table month year w = (Raise e, w)
    /\ (-13 <= month <= 0 -> e = IllegalMonthError month)
    /\ (- 2 ^ 63 <= month < -13 \/ 12 < month <= 2 ^ 63 - 1 ->
        e = IndexError "list index out of range")
    /\ (month < - 2 ^ 63 \/ 2 ^ 63 - 1 < month ->
        e = IndexError "cannot fit 'int' into an index-sized integer").
Proof.
  intros Hm. unfold get_data_table, month_name.
  assert (Hpow : 2 ^ 63 = 9223372036854775808) by reflexivity.
  destruct (Z_lt_le_dec month (- 2 ^ 63)) as [Htiny | Htiny];
    [|destruct (Z_lt_le_dec (2 ^ 63 - 1) month) as [Hhuge | Hhuge];
      [|destruct (Z_lt_le_dec month (-13)) as [Hlow | Hlow];
        [|destruct (Z_lt_le_dec 12 month) as [Hhigh | Hhigh]]]].
  - exists (IndexError "cannot fit 'int' into an index-sized integer").
    split; [|repeat split; (reflexivity || lia)].
    unfold bind, lift. now rewrite py_index_unfit by auto.
  - exists (IndexError "cannot fit 'int' into an index-sized integer").
    split; [|repeat split; (reflexivity || lia)].
    unfold bind, lift. now rewrite py_index_unfit by auto.
  - exists (IndexError "list index out of range").
    split; [|repeat split; (reflexivity || lia)].
    unfold bind, lift. now rewrite py_index_out_of_range by (cbn [length month_names]; lia).
  - exists (IndexError "list index out of range").
    split; [|repeat split; (reflexivity || lia)].
    unfold bind, lift. now rewrite py_index_out_of_range by (cbn [length month_names]; lia).
  - exists (IllegalMonthError month). split; [|repeat split; (reflexivity || lia)].
    assert (Hc : month = -13 \/ month = -12 \/ month = -11 \/ month = -10 \/ month = -9
                 \/ month = -8 \/ month = -7 \/ month = -6 \/ month = -5 \/ month = -4
                 \/ month = -3 \/ month = -2 \/ month = -1 \/ month = 0) by lia.
    repeat (destruct Hc as [-> | Hc]; [reflexivity|]). subst. reflexivity.
Qed.

(** A transport failure of [requests.post] is not turned into [None]: the
    exception leaves [get_data_table], then [load_or_fetch_data] on a cache
    miss, then the iteration of the aggregation loop; nothing is printed and
    nothing is cached. *)
Theorem transport_failure_propagates month year w name e :
  1 <= month <= 12 ->
  month_name month = Ok name ->
  server (posts w) (payload_for name year) = Raise e ->
  let w' := mkWorld (files w) (dirs w) (posts w ++ [payload_for name year])
                    (stdout w) (ticks w) in
  get_data_table month year w = (Raise e, w')
  /\ (files w !! cache_path month year = None ->
      cache_path month year ∉ dirs w ->
      load_or_fetch_data month year w = (Raise e, w')
      /\ forall st, aggregate_step (month, year) st w = (Raise e, w')).
Proof.
  intros Hm Hn Hs w'.
  destruct (monthrange_days_in_range year month Hm) as [d Hd].
  assert (Hg : get_data_table month year w = (Raise e, w')).
  { unfold get_data_table, bind, lift, requests_post. rewrite Hn, Hd.
    fold (payload_for name year). now rewrite Hs. }
  split; [exact Hg|]. intros Hf Hdir.
  assert (Hl : load_or_fetch_data month year w = (Raise e, w'))
    by (now rewrite load_or_fetch_data_miss, Hg).
  split; [exact Hl|]. intros st. now apply aggregate_step_raise.
Qed.

(** When the site answers 200 but [pd.read_html] raises on the page, the
    exception leaves [get_data_table] after the line ['Data fetched for ...']
    has been printed, and [load_or_fetch_data] caches nothing. *)
Theorem page_without_table_raises month year w name resp e :
  1 <= month <= 12 ->
  month_name month = Ok name ->
  server (posts w) (payload_for name year) = Ok resp ->
  status_code resp = 200 ->
  read_html (text resp) = Raise e ->
  let w' := mkWorld (files w) (dirs w) (posts w ++ [payload_for name year])
                    (stdout w ++ ["Data fetched for " +:+ capitalize name +:+ ", "
                                  +:+ pretty year])
                    (ticks w) in
  get_data_table month year w = (Raise e, w')
  /\ (files w !! cache_path month year = None ->
      cache_path month year ∉ dirs w ->
      load_or_fetch_data month year w = (Raise e, w')).
Proof.
  intros Hm Hn Hs Hc Hr w'.
  destruct (monthrange_days_in_range year month Hm) as [d Hd].
  assert (Hg : get_data_table month year w = (Raise e, w')).
  { unfold get_data_table, bind, lift, requests_post. rewrite Hn, Hd.
    fold (payload_for name year). rewrite Hs, Hc. cbn [Z.eqb Pos.eqb].
    unfold print. now rewrite Hr. }
  split; [exact Hg|]. intros Hf Hdir. now rewrite load_or_fetch_data_miss, Hg.
Qed.

(** Whatever it returns or raises, [get_data_table] writes no file, makes
    no directory, does not read the clock and sends at most one request;
    when it returns, it has sent exactly one. *)
Theorem get_data_table_sends_at_most_one_request month year w r w' :
  get_data_table month year w = (r, w') ->
  files w' = files w /\ dirs w' = dirs w /\ ticks w' = ticks w
  /\ (posts w' = posts w \/ exists req, posts w' = posts w ++ [req])
  /\ (forall data_table, r = Ok data_table -> exists req, posts w' = posts w ++ [req]).
Proof.
  intros H.
  destruct (get_data_table_frame _ _ _ _ _ H) as (Hf & Hd & Ht).
  repeat split; try assumption.
  - unfold get_data_table in H. run_cases; eauto.
  - intros data_table ->. eapply get_data_table_one_post; eauto.
Qed.

End FetchProperties.

Section CacheProperties.
Context `{env : Environment}.

(** ** Cache file names *)

(** Different [(month, year)] pairs are cached under different paths. *)
Theorem distinct_months_have_distinct_cache_files month year month' year' :
  (month, year) <> (month', year') ->
  cache_path month year <> cache_path month' year'.
Proof.
  intros Hne H. apply Hne. unfold cache_path, path_join in H.
  apply (inj (String.append DATA_FOLDER)) in H.
  apply (inj (String.append "/")) in H.
  apply (cut_at_first "_"%char) in H as [Hm Hy];
    try (apply pretty_Z_occurs; [apply not_a_digit_underscore | discriminate]).
  apply (cut_at_first "."%char _ _ "parquet" "parquet") in Hy as [Hy _];
    try (apply pretty_Z_occurs; [apply not_a_digit_dot | discriminate]).
  f_equal; now apply (inj pretty).
Qed.

(** A month whose cache file exists is served from it, as often as it is
    asked for: the stored table is returned, one line is printed, no request
    is sent and no file is touched, whatever the site would have answered. *)
Theorem cached_month_is_not_fetched month year w df name :
  files w !! cache_path month year = Some df ->
  month_name month = Ok name ->
  let line := "Loading data for " +:+ name +:+ ", " +:+ pretty year
              +:+ " from " +:+ cache_path month year in
  load_or_fetch_data month year w = (Ok (Some df), say line w)
  /\ load_or_fetch_data month year (say line w) = (Ok (Some df), say line (say line w))
  /\ posts (say line w) = posts w
  /\ files (say line w) = files w
  /\ ticks (say line w) = ticks w.
Proof.
  intros Hf Hn line. split; [now apply load_or_fetch_data_hit|].
  split; [now apply load_or_fetch_data_hit|]. repeat split.
Qed.

(** A refused fetch is not remembered: after a non-200 answer on a cache
    miss the cache file is still absent, and a second call sends the request
    again. *)
Theorem refused_fetch_is_retried month year w name resp resp' :
  1 <= month <= 12 ->
  month_name month = Ok name ->
  files w !! cache_path month year = None ->
  cache_path month year ∉ dirs w ->
  let req := payload_for name year in
  server (posts w) req = Ok resp -> status_code resp <> 200 ->
  server (posts w ++ [req]) req = Ok resp' -> status_code resp' <> 200 ->
  exists w1 w2,
    load_or_fetch_data month year w = (Ok None, w1)
    /\ load_or_fetch_data month year w1 = (Ok None, w2)
    /\ posts w2 = posts w ++ [req; req]
    /\ files w2 = files w.
Proof.
  intros Hm Hn Hf Hd req Hs Hc Hs' Hc'.
  pose proof (get_data_table_non_200 month year w name resp Hm Hn Hs Hc) as Hg.
  set (w1 := mkWorld (files w) (dirs w) (posts w ++ [req])
                     (stdout w ++ ["Failed to fetch data for " +:+ capitalize name +:+ ", "
                                   +:+ pretty year +:+ " with status code: "
                                   +:+ pretty (status_code resp)])
                     (ticks w)) in *.
  pose proof (get_data_table_non_200 month year w1 name resp' Hm Hn Hs' Hc') as Hg'.
  exists w1. eexists. split; [|split].
  - rewrite load_or_fetch_data_miss by assumption. rewrite Hg. reflexivity.
  - rewrite load_or_fetch_data_miss by assumption. rewrite Hg'. reflexivity.
  - cbn [posts files w1]. rewrite <- app_assoc. auto.
Qed.

End CacheProperties.

Section PlannerProperties.
Context `{env : Environment}.

(** ** Ranges *)

Lemma in_py_range_iff x a b : In x (py_range a b) <-> a <= x < b.
Proof.
  split; [apply in_py_range|]. intros Hx. unfold py_range.
  apply in_map_iff. exists (Z.to_nat (x - a)). split; [lia|].
  apply in_seq. lia.
Qed.

Lemma py_range_length a b : Z.of_nat (length (py_range a b)) = Z.max 0 (b - a).
Proof. unfold py_range. rewrite length_map, length_seq. lia. Qed.

Lemma py_range_empty a b : b <= a -> py_range a b = [].
Proof. intros H. unfold py_range. now replace (Z.to_nat (b - a)) with 0%nat by lia. Qed.

Lemma py_range_first a b : a < b -> py_range a b = a :: py_range (a + 1) b.
Proof.
  intros H. unfold py_range.
  replace (Z.to_nat (b - a)) with (S (Z.to_nat (b - (a + 1)))) by lia.
  cbn [seq map]. f_equal; [lia|].
  rewrite <- seq_shift, map_map. apply map_ext. intros i. lia.
Qed.

Lemma py_range_split a b c :
  a <= b <= c -> py_range a c = py_range a b ++ py_range b c.
Proof.
  intros H. unfold py_range.
  replace (Z.to_nat (c - a)) with (Z.to_nat (b - a) + Z.to_nat (c - b))%nat by lia.
  rewrite seq_app, map_app. f_equal.
  assert (Hshift : forall n k,
             map (fun i => a + Z.of_nat i) (seq (Z.to_nat (b - a) + k) n)
             = map (fun i => b + Z.of_nat i) (seq k n)).
  { induction n as [|n IH]; intros k; [reflexivity|].
    cbn [seq map]. f_equal; [lia|]. rewrite <- IH. f_equal. f_equal. lia. }
  rewrite <- (Hshift _ 0%nat). f_equal. f_equal. lia.
Qed.

Lemma py_range_sorted a b : StronglySorted Z.lt (py_range a b).
Proof.
  destruct (Z_le_gt_dec b a) as [H | H]; [rewrite py_range_empty by lia; constructor|].
  remember (Z.to_nat (b - a)) as n eqn:Hn. revert a H Hn.
  induction n as [|n IH]; intros a H Hn; [lia|].
  rewrite py_range_first by lia. constructor.
  - destruct (Z_le_gt_dec b (a + 1)); [rewrite py_range_empty by lia; constructor|].
    apply IH; lia.
  - apply List.Forall_forall. intros x Hx. apply in_py_range in Hx. lia.
Qed.

(** ** The plan as a list *)

Lemma in_planned_months current_year current_month years month year :
  In (month, year) (planned_months current_year current_month years)
  <-> In year years
      /\ 1 <= month <= (if year <? current_year then 12 else current_month).
Proof.
  unfold planned_months. rewrite in_flat_map. split.
  - intros (y & Hy & Hin). apply in_map_iff in Hin as (m & [= -> ->] & Hm).
    apply in_py_range in Hm. split; [assumption | lia].
  - intros [Hy Hm]. exists year. split; [assumption|].
    apply in_map_iff. exists month. split; [reflexivity|].
    apply in_py_range_iff. lia.
Qed.

Lemma planned_months_sorted current_year current_month years :
  StronglySorted Z.lt years ->
  StronglySorted earlier_than (planned_months current_year current_month years).
Proof.
  induction 1 as [|year years Hs IH Hall]; [constructor|].
  change (planned_months current_year current_month (year :: years))
    with (map (fun month => (month, year))
              (py_range 1 ((if year <? current_year then 12 else current_month) + 1))
          ++ planned_months current_year current_month years).
  apply StronglySorted_app_2.
  - intros [m1 y1] [m2 y2] H1 H2. apply list_elem_of_In in H1, H2.
    apply in_map_iff in H1 as (m & [= -> ->] & _).
    apply planned_months_years in H2.
    rewrite List.Forall_forall in Hall. left. cbn. now apply Hall.
  - generalize (py_range_sorted 1 ((if year <? current_year then 12 else current_month) + 1)).
    induction 1 as [|m ms Hms IHm Hm]; cbn [map]; constructor; [assumption|].
    rewrite List.Forall_forall in *. intros p Hp.
    apply in_map_iff in Hp as (m' & <- & Hm'). right. cbn. split; [reflexivity|].
    now apply Hm.
  - exact IH.
Qed.

Lemma filter_sorted {A} (R : A -> A -> Prop) (f : A -> bool) l :
  StronglySorted R l -> StronglySorted R (List.filter f l).
Proof.
  induction 1 as [|x l Hs IH Hall]; [constructor|].
  cbn [List.filter]. destruct (f x); [|assumption]. constructor; [assumption|].
  rewrite List.Forall_forall in *. intros y Hy. apply filter_In in Hy as [Hy _]. auto.
Qed.

Lemma sorted_NoDup (l : list (Z * Z)) : StronglySorted earlier_than l -> List.NoDup l.
Proof.
  induction 1 as [|x l Hs IH Hall]; constructor; [|assumption].
  intros Hin. rewrite List.Forall_forall in Hall. specialize (Hall x Hin).
  unfold earlier_than in Hall. lia.
Qed.

Lemma filter_all {A} (f : A -> bool) l :
  (forall x, In x l -> f x = true) -> List.filter f l = l.
Proof.
  induction l as [|x l IH]; intros H; [reflexivity|].
  cbn [List.filter]. rewrite (H x) by now left. f_equal. apply IH.
  intros y Hy. apply H. now right.
Qed.

Lemma planned_months_app current_year current_month years1 years2 :
  planned_months current_year current_month (years1 ++ years2)
  = planned_months current_year current_month years1
    ++ planned_months current_year current_month years2.
Proof. unfold planned_months. apply flat_map_app. Qed.

Lemma past_years_length current_year current_month years :
  (forall year, In year years -> year < current_year) ->
  Z.of_nat (length (planned_months current_year current_month years))
  = 12 * Z.of_nat (length years).
Proof.
  induction years as [|year years IH]; intros H; [reflexivity|].
  change (planned_months current_year current_month (year :: years))
    with (map (fun month => (month, year))
              (py_range 1 ((if year <? current_year then 12 else current_month) + 1))
          ++ planned_months current_year current_month years).
  rewrite length_app, length_map, Nat2Z.inj_add, py_range_length, IH
    by (intros y Hy; apply H; now right).
  destruct (Z.ltb_spec year current_year) as [_ | Hge];
    [|specialize (H year ltac:(now left)); lia].
  cbn [length]. lia.
Qed.

Lemma in_plan current_year current_month start_year end_year month year :
  In (month, year)
     (List.filter (not_beyond current_year current_month)
        (planned_months current_year current_month (py_range start_year (end_year + 1))))
  <-> start_year <= year <= end_year /\ 1 <= month
      /\ ((year < current_year /\ month <= 12)
          \/ (year = current_year /\ month <= current_month)).
Proof.
  rewrite filter_In, in_planned_months, in_py_range_iff. unfold not_beyond.
  rewrite orb_true_iff, andb_true_iff, Z.ltb_lt, Z.eqb_eq, Z.leb_le.
  destruct (Z.ltb_spec year current_year); lia.
Qed.

(** The plan of a valid range holds exactly the months from 1 up to 12 of
    the years of the range before the current year, and the months from 1 up
    to the current month of the current year when it is in the range. *)
Theorem plan_membership start_year end_year w :
  start_year <= end_year ->
  let current_year := dt_year (utcnow (ticks w)) in
  let current_month := dt_month (utcnow (S (ticks w))) in
  exists fetch_list w',
    create_fetch_list start_year end_year w = (Ok fetch_list, w')
    /\ forall month year,
         In (month, year) fetch_list
         <-> start_year <= year <= end_year /\ 1 <= month
             /\ ((year < current_year /\ month <= 12)
                 \/ (year = current_year /\ month <= current_month)).
Proof.
  intros Hr current_year current_month.
  rewrite (create_fetch_list_valid _ _ w Hr). do 2 eexists. split; [reflexivity|].
  intros month year. apply in_plan.
Qed.

(** The plan is in strictly ascending chronological order, hence without
    repeated entries. *)
Theorem plan_is_ascending_without_repeats start_year end_year w :
  start_year <= end_year ->
  exists fetch_list w',
    create_fetch_list start_year end_year w = (Ok fetch_list, w')
    /\ StronglySorted earlier_than fetch_list
    /\ List.NoDup fetch_list.
Proof.
  intros Hr. rewrite (create_fetch_list_valid _ _ w Hr). do 2 eexists.
  split; [reflexivity|].
  assert (Hs : StronglySorted earlier_than
                 (List.filter (not_beyond (dt_year (utcnow (ticks w)))
                                          (dt_month (utcnow (S (ticks w)))))
                    (planned_months (dt_year (utcnow (ticks w)))
                       (dt_month (utcnow (S (ticks w))))
                       (py_range start_year (end_year + 1)))))
    by apply filter_sorted, planned_months_sorted, py_range_sorted.
  split; [exact Hs | now apply sorted_NoDup].
Qed.

(** The plan has twelve entries per year when the range ends before the
    current year, and twelve per past year plus the current month number of
    entries when the current year is in the range. *)
Theorem plan_size start_year end_year w :
  start_year <= end_year ->
  let current_year := dt_year (utcnow (ticks w)) in
  let current_month := dt_month (utcnow (S (ticks w))) in
  exists fetch_list w',
    create_fetch_list start_year end_year w = (Ok fetch_list, w')
    /\ (end_year < current_year ->
        Z.of_nat (length fetch_list) = 12 * (end_year - start_year + 1))
    /\ (start_year <= current_year <= end_year -> 0 <= current_month ->
        Z.of_nat (length fetch_list) = 12 * (current_year - start_year) + current_month).
Proof.
  intros Hr current_year current_month.
  rewrite (create_fetch_list_valid _ _ w Hr). do 2 eexists. split; [reflexivity|].
  fold current_year current_month. split.
  - intros Hpast. rewrite filter_all.
    + rewrite past_years_length, py_range_length; [lia|].
      intros year Hy. apply in_py_range in Hy. lia.
    + intros [month year] Hin. apply planned_months_years, in_py_range in Hin.
      unfold not_beyond. apply orb_true_iff. left. apply Z.ltb_lt. lia.
  - intros Hin Hcm.
    rewrite (py_range_split start_year current_year (end_year + 1)) by lia.
    rewrite (py_range_first current_year) by lia.
    change (current_year :: py_range (current_year + 1) (end_year + 1))
      with ([current_year] ++ py_range (current_year + 1) (end_year + 1)).
    rewrite !planned_months_app, !List.filter_app, !length_app, !Nat2Z.inj_add.
    rewrite (filter_all _ (planned_months _ _ (py_range start_year current_year))).
    2:{ intros [month year] Hy. apply planned_months_years, in_py_range in Hy.
        unfold not_beyond. apply orb_true_iff. left. apply Z.ltb_lt. lia. }
    rewrite (filter_all _ (planned_months _ _ [current_year])).
    2:{ intros [month year] Hy. apply in_planned_months in Hy as [[<- | []] Hm].
        rewrite Z.ltb_irrefl in Hm. unfold not_beyond.
        rewrite Z.ltb_irrefl, Z.eqb_refl. cbn. apply Z.leb_le. lia. }
    rewrite (filter_nil _ (planned_months _ _ (py_range (current_year + 1) (end_year + 1)))).
    2:{ intros [month year] Hy. apply planned_months_years, in_py_range in Hy.
        unfold not_beyond. apply orb_false_iff. split; [apply Z.ltb_ge; lia|].
        apply andb_false_iff. left. apply Z.eqb_neq. lia. }
    rewrite past_years_length, py_range_length
      by (intros year Hy; apply in_py_range in Hy; lia).
    unfold planned_months. cbn [flat_map]. rewrite app_nil_r, length_map.
    rewrite Z.ltb_irrefl, py_range_length. cbn [length]. lia.
Qed.

(** With a clock whose month is at least 1, the plan of a valid range is
    empty exactly when the range starts after the current year. *)
Theorem plan_is_empty_only_for_future_ranges start_year end_year w :
  start_year <= end_year ->
  1 <= dt_month (utcnow (S (ticks w))) ->
  exists fetch_list w',
    create_fetch_list start_year end_year w = (Ok fetch_list, w')
    /\ (fetch_list = [] <-> dt_year (utcnow (ticks w)) < start_year).
Proof.
  intros Hr Hcm.
  rewrite (create_fetch_list_valid _ _ w Hr). do 2 eexists. split; [reflexivity|].
  pose proof (in_plan (dt_year (utcnow (ticks w))) (dt_month (utcnow (S (ticks w))))
                start_year end_year) as Hin.
  destruct (List.filter _ _) as [|[month year] l] eqn:Hplan in Hin |- *.
  all: split.
  - intros _. destruct (Z_lt_le_dec (dt_year (utcnow (ticks w))) start_year) as [|Hle];
      [assumption|]. exfalso.
    apply (proj2 (Hin 1 start_year)). lia.
  - reflexivity.
  - discriminate.
  - intros Hfut. exfalso.
    specialize (proj1 (Hin month year) ltac:(now left)). lia.
Qed.

Lemma create_fetch_list_frame start_year end_year w r w' :
  create_fetch_list start_year end_year w = (r, w') ->
  files w' = files w /\ dirs w' = dirs w.
Proof.
  intros H. destruct (Z_lt_le_dec end_year start_year) as [Hr | Hr].
  - rewrite create_fetch_list_invalid in H by assumption. inversion H; subst. auto.
  - rewrite create_fetch_list_valid in H by assumption. inversion H; subst. cbn. auto.
Qed.

(** Whatever its arguments, [create_fetch_list] sends no request and
    touches neither files nor directories.  When it rejects the range it
    raises the [ValueError] without having read the clock or printed
    anything; otherwise it returns a plan, having read the clock exactly
    twice. *)
Theorem create_fetch_list_only_reads_the_clock start_year end_year w r w' :
  create_fetch_list start_year end_year w = (r, w') ->
  files w' = files w /\ dirs w' = dirs w /\ posts w' = posts w
  /\ ((end_year < start_year
       /\ r = Raise (ValueError "End year cannot be smaller than start year.")
       /\ ticks w' = ticks w /\ stdout w' = stdout w)
      \/ (start_year <= end_year
          /\ (exists fetch_list, r = Ok fetch_list)
          /\ ticks w' = S (S (ticks w)))).
Proof.
  intros H. destruct (Z_lt_le_dec end_year start_year) as [Hr | Hr].
  - rewrite create_fetch_list_invalid in H by assumption. inversion H; subst.
    repeat split; auto.
  - rewrite create_fetch_list_valid in H by assumption. inversion H; subst.
    cbn [files dirs posts ticks]. repeat split; eauto 6.
Qed.

End PlannerProperties.

Section AggregationProperties.
Context `{env : Environment}.

(** ** The loop invariant *)

Lemma aggregate_step_tidy entry st w c w' :
  aggregate_step entry st w = (Ok c, w') ->
  tidy st -> consecutive_zero_rows st <= 4 ->
  match c with
  | Next st' => tidy st' /\ consecutive_zero_rows st' <= 4
  | Break st' => tidy st' /\ consecutive_zero_rows st' = 5
  end.
Proof.
  destruct entry as [month year]. intros H [Htables Hcount] Hle.
  unfold aggregate_step in H. unfold bind at 1 in H.
  destruct (load_or_fetch_data month year w) as [[[df|]|e] w1]; [| |discriminate].
  - unfold bind at 1, lift, shape in H. unfold bind at 1, print at 1 in H.
    destruct (Z.ltb_spec 0 (len df)) as [Hpos | Hzero].
    + unfold ret in H. injection H as <- _. unfold tidy. cbn. split; [|lia].
      split; [|reflexivity]. apply Forall_app. split; [assumption|].
      constructor; [assumption | constructor].
    + unfold bind at 1, lift in H. destruct (month_name month) as [name|e]; [|discriminate].
      destruct (Z.eqb_spec (consecutive_zero_rows st + 1) 5) as [Hfive | Hnot].
      * unfold bind, print, ret in H. injection H as <- _. unfold tidy. cbn.
        rewrite length_app. cbn. repeat split; [assumption | lia | assumption].
      * unfold ret in H. injection H as <- _. unfold tidy. cbn.
        rewrite length_app. cbn. repeat split; [assumption | lia | lia].
  - unfold bind at 1, lift, shape in H. discriminate.
Qed.

Lemma aggregate_loop_tidy entries st w st' w' :
  aggregate_loop entries st w = (Ok st', w') ->
  tidy st -> consecutive_zero_rows st <= 4 ->
  tidy st' /\ consecutive_zero_rows st' <= 5.
Proof.
  unfold aggregate_loop. revert st w.
  induction entries as [|entry entries IH]; intros st w H Ht Hle.
  - cbn in H. injection H as <- _. split; [assumption | lia].
  - cbn [for_loop] in H. unfold bind at 1 in H.
    destruct (aggregate_step entry st w) as [[[st1|st1]|e] w1] eqn:Hs; [| |discriminate].
    + destruct (aggregate_step_tidy _ _ _ _ _ Hs Ht Hle) as [Ht1 Hle1]. eauto.
    + destruct (aggregate_step_tidy _ _ _ _ _ Hs Ht Hle) as [Ht1 Hle1].
      injection H as <- _. split; [assumption | lia].
Qed.

Lemma initial_state_tidy : tidy initial_state.
Proof. split; [constructor | reflexivity]. Qed.

(** A table returned by [get_data_for_months] is never empty: it is the
    concatenation of at least one collected table, each with at least one
    row; at the end of the loop the counter lies between 0 and 5 and equals
    the number of recorded labels. *)
Theorem result_has_rows fetch_list w result_table w' :
  get_data_for_months fetch_list w = (Ok result_table, w') ->
  exists st,
    aggregate_loop (rev fetch_list) initial_state w = (Ok st, w')
    /\ pd_concat (all_tables st) = Ok result_table
    /\ Forall (fun df => 0 < len df) (all_tables st)
    /\ 0 <= consecutive_zero_rows st <= 5
    /\ Z.of_nat (length (consecutive_zero_months st)) = consecutive_zero_rows st
    /\ 0 < len result_table.
Proof.
  unfold get_data_for_months, bind, lift. intros H.
  destruct (aggregate_loop (rev fetch_list) initial_state w) as [[st|e] w1] eqn:Hloop;
    [|discriminate].
  injection H as Hc <-. exists st.
  destruct (aggregate_loop_tidy _ _ _ _ _ Hloop initial_state_tidy) as [[Ht Hn] Hle];
    [cbn; lia|].
  repeat split; try assumption; try lia.
  rewrite (pd_concat_len _ _ Hc).
  destruct (all_tables st) as [|t tables]; [discriminate|].
  cbn [foldr]. inversion Ht as [|? ? Hpos Hrest]; subst.
  assert (Hsum : 0 <= foldr (fun df n => len df + n) 0 tables).
  { clear. induction tables as [|t' l IH]; cbn [foldr]; [lia|].
    pose proof (len_nonneg t'). lia. }
  lia.
Qed.

(** ** Runs on a warm cache *)

Lemma aggregate_step_cached month year st w df :
  1 <= month <= 12 ->
  files w !! cache_path month year = Some df ->
  exists c w',
    aggregate_step (month, year) st w = (Ok c, w')
    /\ files w' = files w /\ posts w' = posts w
    /\ dirs w' = dirs w /\ ticks w' = ticks w
    /\ (0 < len df -> c = Next (mkLoopState (all_tables st ++ [df]) 0 []))
    /\ (len df = 0 ->
        all_tables match c with Next s | Break s => s end = all_tables st
        /\ consecutive_zero_rows match c with Next s | Break s => s end
           = consecutive_zero_rows st + 1
        /\ (consecutive_zero_rows st + 1 <> 5 -> exists s, c = Next s)
        /\ (consecutive_zero_rows st + 1 = 5 ->
            (exists s, c = Break s) /\ last (stdout w') = Some "Data fetch aborted.")).
Proof.
  intros Hm Hf. destruct (month_name_in_range month Hm) as [name Hn].
  pose proof (load_or_fetch_data_hit month year w df name Hf Hn) as Hl.
  destruct (Z_lt_le_dec 0 (len df)) as [Hpos | Hzero].
  - rewrite (aggregate_step_rows _ _ st _ _ _ Hl Hpos). do 2 eexists.
    split; [reflexivity|]. cbn. repeat split; try lia.
  - assert (Hz : len df = 0) by (pose proof (len_nonneg df); lia).
    rewrite (aggregate_step_zero_rows _ _ st _ _ _ name Hl Hz Hn).
    destruct (Z.eqb_spec (consecutive_zero_rows st + 1) 5) as [Hfive | Hnot].
    + do 2 eexists. split; [reflexivity|].
      cbn [say print snd files posts dirs ticks stdout]. rewrite last_snoc.
      repeat split; try lia; eauto.
    + do 2 eexists. split; [reflexivity|].
      cbn [say print snd files posts dirs ticks stdout].
      repeat split; try lia; eauto; contradiction.
Qed.

Lemma aggregate_loop_cached entries st w :
  (forall entry, In entry entries ->
     1 <= fst entry <= 12 /\ is_Some (files w !! cache_path (fst entry) (snd entry))) ->
  exists st' w',
    aggregate_loop entries st w = (Ok st', w')
    /\ files w' = files w /\ posts w' = posts w
    /\ dirs w' = dirs w /\ ticks w' = ticks w.
Proof.
  unfold aggregate_loop. revert st w.
  induction entries as [|[month year] entries IH]; intros st w H.
  - do 2 eexists. split; [reflexivity|]. auto.
  - destruct (H (month, year) ltac:(now left)) as [Hm [df Hf]]. cbn [fst snd] in Hm, Hf.
    destruct (aggregate_step_cached month year st w df Hm Hf)
      as (c & w1 & Hs & Hf1 & Hp1 & Hd1 & Ht1 & _).
    destruct c as [st1 | st1].
    + rewrite (for_loop_next _ _ _ _ _ _ _ Hs).
      destruct (IH st1 w1) as (st' & w' & Hl & Hf' & Hp' & Hd' & Ht').
      { intros entry Hin. rewrite Hf1. apply H. now right. }
      exists st', w'. split; [exact Hl|]. repeat split; congruence.
    + rewrite (for_loop_break _ _ _ _ _ _ _ Hs). eauto 10.
Qed.

(** When every entry of the plan is cached, [get_data_for_months] runs
    offline: no request, no file written, no clock read; the only exception
    it can raise is the [ValueError] of an empty concatenation. *)
Theorem cached_plan_runs_offline fetch_list w :
  (forall entry, In entry fetch_list ->
     1 <= fst entry <= 12 /\ exists df, cached w entry df) ->
  exists r w',
    get_data_for_months fetch_list w = (r, w')
    /\ posts w' = posts w /\ files w' = files w
    /\ dirs w' = dirs w /\ ticks w' = ticks w
    /\ forall e, r = Raise e -> e = ValueError "No objects to concatenate".
Proof.
  intros H.
  destruct (aggregate_loop_cached (rev fetch_list) initial_state w)
    as (st & w' & Hl & Hf & Hp & Hd & Ht).
  { intros entry Hin. apply in_rev in Hin. exact (H entry Hin). }
  unfold get_data_for_months, bind, lift. rewrite Hl.
  do 2 eexists. split; [reflexivity|]. repeat split; try assumption.
  intros e. unfold pd_concat. destruct (all_tables st); [|discriminate].
  now intros [= <-].
Qed.

Lemma aggregate_loop_collects entries tables st w :
  Forall2 (fun entry df => 1 <= fst entry <= 12 /\ cached w entry df /\ 0 < len df)
          entries tables ->
  exists st' w',
    aggregate_loop entries st w = (Ok st', w')
    /\ all_tables st' = all_tables st ++ tables
    /\ files w' = files w /\ posts w' = posts w.
Proof.
  unfold aggregate_loop. revert tables st w.
  induction entries as [|[month year] entries IH]; intros tables st w H;
    inversion H as [|? df ? tables' (Hm & Hf & Hpos) Hrest]; subst.
  - do 2 eexists. split; [reflexivity|]. rewrite app_nil_r. auto.
  - cbn [fst snd] in Hm. unfold cached in Hf. cbn [fst snd] in Hf.
    destruct (aggregate_step_cached month year st w df Hm Hf)
      as (c & w1 & Hs & Hf1 & Hp1 & _ & _ & Hnext & _).
    rewrite (Hnext Hpos) in Hs. rewrite (for_loop_next _ _ _ _ _ _ _ Hs).
    destruct (IH tables' (mkLoopState (all_tables st ++ [df]) 0 []) w1)
      as (st' & w' & Hl & Ht & Hf' & Hp').
    { eapply Forall2_impl; [exact Hrest|]. intros entry t (? & Hc & ?).
      unfold cached in *. rewrite Hf1. auto. }
    exists st', w'. split; [exact Hl|]. cbn [all_tables] in Ht.
    rewrite Ht, <- app_assoc. repeat split; congruence.
Qed.

Lemma Forall2_rev_rev {A B} (P : A -> B -> Prop) l k :
  Forall2 P l k -> Forall2 P (rev l) (rev k).
Proof.
  induction 1 as [|x y l k Hxy _ IH]; [constructor|].
  cbn [rev]. apply Forall2_app; [assumption|]. constructor; [assumption | constructor].
Qed.

(** When every entry of the plan is cached with a table that has rows,
    the result is the concatenation of these tables from the last entry of
    the plan to the first. *)
Theorem cached_tables_are_stacked_latest_first fetch_list tables w :
  Forall2 (fun entry df => 1 <= fst entry <= 12 /\ cached w entry df /\ 0 < len df)
          fetch_list tables ->
  exists w',
    get_data_for_months fetch_list w = (pd_concat (rev tables), w')
    /\ posts w' = posts w /\ files w' = files w.
Proof.
  intros H. apply Forall2_rev_rev in H.
  destruct (aggregate_loop_collects _ _ initial_state w H)
    as (st & w' & Hl & Ht & Hf & Hp).
  exists w'. unfold get_data_for_months, bind, lift. rewrite Hl, Ht. auto.
Qed.

(** ** The early stop *)

Lemma barren_months_stop entries st w :
  entries <> [] ->
  consecutive_zero_rows st + Z.of_nat (length entries) = 5 ->
  (forall entry, In entry entries ->
     1 <= fst entry <= 12 /\ exists df, cached w entry df /\ len df = 0) ->
  exists st' w',
    (forall rest, aggregate_loop (entries ++ rest) st w = (Ok st', w'))
    /\ all_tables st' = all_tables st
    /\ files w' = files w /\ posts w' = posts w
    /\ last (stdout w') = Some "Data fetch aborted.".
Proof.
  unfold aggregate_loop. revert st w.
  induction entries as [|[month year] entries IH]; intros st w Hne Hcount H;
    [contradiction|].
  destruct (H (month, year) ltac:(now left)) as (Hm & df & Hf & Hz).
  cbn [fst snd] in Hm. unfold cached in Hf. cbn [fst snd] in Hf.
  destruct (aggregate_step_cached month year st w df Hm Hf)
    as (c & w1 & Hs & Hf1 & Hp1 & _ & _ & _ & Hzero).
  destruct (Hzero Hz) as (Htables & Hrows & Hnext & Hbreak).
  destruct entries as [|entry entries].
  - destruct Hbreak as [[st1 ->] Hlast]; [cbn [length] in Hcount; lia|].
    exists st1, w1. split; [|auto].
    intros rest. cbn [app]. now apply for_loop_break.
  - destruct Hnext as [st1 ->]; [cbn [length] in Hcount; lia|].
    destruct (IH st1 w1) as (st' & w' & Hl & Ht & Hf' & Hp' & Hlast);
      [discriminate | cbn [length] in *; lia | |].
    { intros e He. destruct (H e ltac:(now right)) as (? & t & Hc & ?).
      split; [assumption|]. exists t. unfold cached in *. rewrite Hf1. auto. }
    exists st', w'. split.
    + intros rest. rewrite <- (Hl rest). cbn [app]. now apply for_loop_next.
    + repeat split; congruence.
Qed.

(** When the last five entries of the plan are cached as empty tables, the
    run stops after them: the entries before them make no difference, the
    output ends with ['Data fetch aborted.'], nothing is requested, and the
    empty concatenation raises [ValueError]. *)
Theorem five_barren_months_end_the_run earlier five w :
  length five = 5%nat ->
  (forall entry, In entry five ->
     1 <= fst entry <= 12 /\ exists df, cached w entry df /\ len df = 0) ->
  exists w',
    get_data_for_months (earlier ++ five) w
      = (Raise (ValueError "No objects to concatenate"), w')
    /\ get_data_for_months five w = get_data_for_months (earlier ++ five) w
    /\ posts w' = posts w /\ files w' = files w
    /\ last (stdout w') = Some "Data fetch aborted.".
Proof.
  intros Hlen H.
  destruct (barren_months_stop (rev five) initial_state w)
    as (st & w' & Hl & Ht & Hf & Hp & Hlast).
  - intros Hnil. apply (f_equal (@length _)) in Hnil. rewrite length_rev, Hlen in Hnil.
    discriminate.
  - rewrite length_rev, Hlen. reflexivity.
  - intros entry Hin. apply in_rev in Hin. auto.
  - exists w'. unfold get_data_for_months, bind, lift.
    rewrite rev_app_distr, (Hl (rev earlier)).
    rewrite <- (app_nil_r (rev five)), (Hl []), Ht. auto.
Qed.

End AggregationProperties.

Section MainProperties.
Context `{env : Environment}.


Lemma create_fetch_list_raises_only_ValueError start_year end_year w e w' :
  create_fetch_list start_year end_year w = (Raise e, w') ->
  e = ValueError "End year cannot be smaller than start year.".
Proof.
  intros H. destruct (Z_lt_le_dec end_year start_year) as [Hr | Hr].
  - rewrite create_fetch_list_invalid in H by assumption. now inversion H.
  - rewrite create_fetch_list_valid in H by assumption. discriminate.
Qed.

Lemma get_data_for_months_frame fetch_list w r w' :
  get_data_for_months fetch_list w = (r, w') ->
  dirs w' = dirs w /\ ticks w' = ticks w /\
  forall path, ~ in_data_folder path -> files w' !! path = files w !! path.
Proof.
  unfold get_data_for_months, bind, lift. intros H.
  destruct (aggregate_loop (rev fetch_list) initial_state w) as [[st|e] w1] eqn:Hl;
    inversion H; subst; eapply aggregate_loop_frame; eauto.
Qed.

Lemma with_data_folder_dirs w :
  dirs (with_data_folder w) = dirs w
  \/ dirs (with_data_folder w) = {[ DATA_FOLDER ]} ∪ dirs w.
Proof.
  unfold with_data_folder, bind, path_exists, makedirs, ret.
  destruct (negb _); cbn; auto.
Qed.

Lemma with_data_folder_exists w :
  DATA_FOLDER ∈ dirs (with_data_folder w)
  \/ is_Some (files (with_data_folder w) !! DATA_FOLDER).
Proof.
  unfold with_data_folder, bind, path_exists, makedirs, ret.
  destruct (bool_decide (is_Some (files w !! DATA_FOLDER))) eqn:Hf.
  - right. cbn. now apply bool_decide_eq_true_1 in Hf.
  - destruct (bool_decide (DATA_FOLDER ∈ dirs w)) eqn:Hd.
    + left. cbn. now apply bool_decide_eq_true_1 in Hd.
    + left. cbn. set_solver.
Qed.

(** [main] catches nothing that [get_data_for_months] raises: the exception
    ends the run in the world the aggregation left, in which no file outside
    the cache folder differs from what it was at the start. *)
Theorem main_does_not_catch_aggregation_errors
    start_year end_year w fetch_list w1 err w2 :
  create_fetch_list start_year end_year (with_data_folder w) = (Ok fetch_list, w1) ->
  fetch_list <> [] ->
  get_data_for_months fetch_list w1 = (Raise err, w2) ->
  main start_year end_year w = (Raise err, w2)
  /\ forall path, ~ in_data_folder path -> files w2 !! path = files w !! path.
Proof.
  intros Hplan Hne Hg. split.
  - rewrite main_after_folder. unfold bind at 1, try_except_ValueError.
    unfold bind at 1. rewrite Hplan. unfold ret at 1.
    destruct fetch_list as [|entry fetch_list]; [contradiction|].
    unfold bind at 1. now rewrite Hg.
  - intros path Hp.
    destruct (get_data_for_months_frame _ _ _ _ Hg) as (_ & _ & Hf).
    destruct (create_fetch_list_frame _ _ _ _ _ Hplan) as (Hf1 & _).
    destruct (with_data_folder_frame w) as (Hf0 & _).
    rewrite (Hf _ Hp), Hf1, Hf0. reflexivity.
Qed.

(** When nothing is present under the plain name of the combined output,
    [main] writes its result there, prints the name and does not read the
    clock for a stamp. *)
Theorem fresh_output_takes_the_plain_name
    start_year end_year w fetch_list w1 result_table w2 :
  create_fetch_list start_year end_year (with_data_folder w) = (Ok fetch_list, w1) ->
  fetch_list <> [] ->
  get_data_for_months fetch_list w1 = (Ok result_table, w2) ->
  files w2 !! file_name_combined = None ->
  file_name_combined ∉ dirs w2 ->
  main start_year end_year w
  = (Ok tt,
     mkWorld (<[file_name_combined := parquet_image result_table]> (files w2))
             (dirs w2) (posts w2)
             (stdout w2 ++ ["Result table saved as " +:+ file_name_combined])
             (ticks w2)).
Proof.
  intros Hplan Hne Hg Hf Hd.
  assert (Hfree : path_exists file_name_combined w2 = (Ok false, w2)).
  { unfold path_exists. f_equal. f_equal. apply orb_false_iff. split.
    - apply bool_decide_eq_false_2. rewrite Hf. intros [? ?]. discriminate.
    - now apply bool_decide_eq_false_2. }
  rewrite main_after_folder. unfold bind at 1, try_except_ValueError.
  unfold bind at 1. rewrite Hplan. unfold ret at 1.
  destruct fetch_list as [|entry fetch_list]; [contradiction|].
  unfold bind at 1. rewrite Hg. unfold bind at 1. rewrite Hfree.
  unfold bind at 1, ret at 1. unfold bind at 1.
  rewrite to_parquet_bare by (reflexivity || exact Hd). reflexivity.
Qed.

(** However it ends, [main] changes no file other than those of the cache
    folder and the combined output, whose name starts with
    [historic_rate_data_bd_banks_combined]; it creates at most the data
    folder, which exists afterwards unless a file of that name was there. *)
Theorem main_confines_its_writes start_year end_year w r w' :
  main start_year end_year w = (r, w') ->
  (forall path,
     ~ in_data_folder path ->
     (forall suffix, path <> "historic_rate_data_bd_banks_combined" +:+ suffix) ->
     files w' !! path = files w !! path)
  /\ (dirs w' = dirs w \/ dirs w' = {[ DATA_FOLDER ]} ∪ dirs w)
  /\ (DATA_FOLDER ∈ dirs w' \/ is_Some (files w !! DATA_FOLDER)).
Proof.
  intros H. rewrite main_after_folder in H.
  pose proof (with_data_folder_frame w) as (Hf0 & _).
  pose proof (with_data_folder_dirs w) as Hd0.
  pose proof (with_data_folder_exists w) as He0. rewrite Hf0 in He0.
  unfold bind at 1, try_except_ValueError in H. unfold bind at 1 in H.
  destruct (create_fetch_list start_year end_year (with_data_folder w))
    as [[fetch_list|e] w1] eqn:Hplan.
  all: destruct (create_fetch_list_frame _ _ _ _ _ Hplan) as (Hf1 & Hd1).
  - unfold ret at 1 in H. destruct fetch_list as [|entry fetch_list].
    + unfold bind, print, ret in H. inversion H; subst. cbn [files dirs].
      rewrite Hf1, Hd1, Hf0. auto.
    + unfold bind at 1 in H.
      destruct (get_data_for_months (entry :: fetch_list) w1)
        as [[result_table|e] w2] eqn:Hg.
      all: destruct (get_data_for_months_frame _ _ _ _ Hg) as (Hd2 & _ & Hf2).
      * change (py_index (split file_name_combined ".parquet") 0)
          with (Ok (A:=string) "historic_rate_data_bd_banks_combined") in H.
        run_cases; rewrite ?Hd2, ?Hd1; (split; [|auto]).
        all: intros path Hp Hs.
        all: rewrite ?lookup_insert_ne
               by first [apply not_eq_sym, Hs | apply not_eq_sym, (Hs ".parquet")].
        all: rewrite (Hf2 _ Hp), Hf1, Hf0; reflexivity.
      * inversion H; subst. rewrite Hd2, Hd1. split; [|auto].
        intros path Hp _. rewrite (Hf2 _ Hp), Hf1, Hf0. reflexivity.
  - rewrite (create_fetch_list_raises_only_ValueError _ _ _ _ _ Hplan) in H.
    unfold bind, print, ret in H. inversion H; subst. cbn [files dirs].
    rewrite Hf1, Hd1, Hf0. auto.
Qed.

End MainProperties.

Section RerunProperties.
Context `{env : Environment}.

(** ** Files are only ever added *)

Lemma load_or_fetch_data_resolved month year w df w' :
  load_or_fetch_data month year w = (Ok (Some df), w') ->
  files w ⊆ files w'
  /\ exists stored, files w' !! cache_path month year = Some stored /\ read_back df stored.
Proof.
  intros H. unfold load_or_fetch_data in H. unfold bind at 1, path_exists in H.
  destruct (_ || _) eqn:Hhit in H.
  - run_cases. split; [reflexivity|]. eexists. split; [eassumption | now left].
  - apply orb_false_iff in Hhit as [Hfile _].
    apply bool_decide_eq_false_1 in Hfile.
    assert (Hnone : files w !! cache_path month year = None)
      by (destruct (files w !! cache_path month year); [exfalso; eauto | reflexivity]).
    unfold bind at 1 in H.
    destruct (get_data_table month year w) as [[[t|]|e] w1] eqn:Hg.
    all: apply get_data_table_frame in Hg as (Hf & _).
    all: run_cases. rewrite Hf. split; [now apply insert_subseteq|].
    eexists. split; [apply lookup_insert_eq | now right].
Qed.

Lemma aggregate_step_resolved month year st w c w' :
  aggregate_step (month, year) st w = (Ok c, w') ->
  exists df w1 name,
    load_or_fetch_data month year w = (Ok (Some df), w1)
    /\ month_name month = Ok name
    /\ files w' = files w1.
Proof.
  intros H. unfold aggregate_step in H. unfold bind at 1 in H.
  destruct (load_or_fetch_data month year w) as [[[df|]|e] w1] eqn:Hl;
    [| discriminate | discriminate].
  destruct (load_or_fetch_data_month_name _ _ _ _ _ Hl) as [name Hn].
  exists df, w1, name. repeat split; try assumption.
  rewrite Hn in H. run_cases; reflexivity.
Qed.

Lemma aggregate_loop_keeps_files entries st w st' w' :
  aggregate_loop entries st w = (Ok st', w') -> files w ⊆ files w'.
Proof.
  unfold aggregate_loop. revert st w.
  induction entries as [|[month year] entries IH]; intros st w H.
  - cbn in H. now inversion H.
  - cbn [for_loop] in H. unfold bind at 1 in H.
    destruct (aggregate_step (month, year) st w) as [[c|e] w1] eqn:Hs; [|discriminate].
    destruct (aggregate_step_resolved _ _ _ _ _ _ Hs) as (df & wl & name & Hl & _ & Hf).
    apply load_or_fetch_data_resolved in Hl as [Hsub _]. rewrite <- Hf in Hsub.
    destruct c as [st1 | st1].
    + etransitivity; [exact Hsub | eauto].
    + inversion H; subst. exact Hsub.
Qed.

Lemma same_course_refl st : same_course st st.
Proof.
  repeat split. induction (all_tables st); constructor; [now left | assumption].
Qed.

(** An iteration that went through is repeated offline, and takes the same
    course, in any world whose cache holds what the iteration left. *)
Lemma aggregate_step_again month year st st2 w c w' w2 :
  (forall df, len (parquet_image df) = len df) ->
  aggregate_step (month, year) st w = (Ok c, w') ->
  files w' ⊆ files w2 ->
  same_course st st2 ->
  exists c2 w2',
    aggregate_step (month, year) st2 w2 = (Ok c2, w2')
    /\ files w2' = files w2 /\ posts w2' = posts w2
    /\ match c, c2 with
       | Next s, Next s2 | Break s, Break s2 => same_course s s2
       | _, _ => False
       end.
Proof.
  intros Hlen Hs Hsub (Hrows & Hmonths & Htables).
  destruct (aggregate_step_resolved _ _ _ _ _ _ Hs) as (df & wl & name & Hl & Hn & Hf).
  pose proof (load_or_fetch_data_resolved _ _ _ _ _ Hl) as [_ (stored & Hcached & Hback)].
  rewrite <- Hf in Hcached.
  pose proof (lookup_weaken _ _ _ _ Hcached Hsub) as Hcached2.
  pose proof (load_or_fetch_data_hit month year w2 stored name Hcached2 Hn) as Hl2.
  assert (Hsame : len stored = len df) by (destruct Hback as [-> | ->]; auto).
  destruct (Z_lt_le_dec 0 (len df)) as [Hpos | Hzero].
  - rewrite (aggregate_step_rows _ _ st _ _ _ Hl Hpos) in Hs.
    rewrite (aggregate_step_rows _ _ st2 _ _ _ Hl2) by lia.
    injection Hs as <- _. do 2 eexists. split; [reflexivity|].
    repeat split. cbn [all_tables]. apply Forall2_app; [assumption|].
    constructor; [assumption | constructor].
  - assert (Hz : len df = 0) by (pose proof (len_nonneg df); lia).
    rewrite (aggregate_step_zero_rows _ _ st _ _ _ name Hl Hz Hn) in Hs.
    rewrite (aggregate_step_zero_rows _ _ st2 _ _ _ name Hl2) by (congruence || assumption).
    rewrite Hrows, Hmonths.
    destruct (consecutive_zero_rows st + 1 =? 5);
      injection Hs as <- _; do 2 eexists; (split; [reflexivity|]);
      repeat split; assumption.
Qed.

Lemma aggregate_loop_again entries st st2 w st' w' w2 :
  (forall df, len (parquet_image df) = len df) ->
  aggregate_loop entries st w = (Ok st', w') ->
  files w' ⊆ files w2 ->
  same_course st st2 ->
  exists st2' w2',
    aggregate_loop entries st2 w2 = (Ok st2', w2')
    /\ same_course st' st2'
    /\ files w2' = files w2 /\ posts w2' = posts w2.
Proof.
  intros Hlen. unfold aggregate_loop. revert st st2 w w2.
  induction entries as [|[month year] entries IH]; intros st st2 w w2 H Hsub Hcourse.
  - cbn in H. inversion H; subst. do 2 eexists. split; [reflexivity|]. auto.
  - cbn [for_loop] in H. unfold bind at 1 in H.
    destruct (aggregate_step (month, year) st w) as [[c|e] w1] eqn:Hs; [|discriminate].
    destruct c as [st1 | st1].
    + pose proof (aggregate_loop_keeps_files _ _ _ _ _ H) as Hkeep.
      destruct (aggregate_step_again _ _ _ st2 _ _ _ w2 Hlen Hs)
        as ([s2 | s2] & w2a & Hs2 & Hf2 & Hp2 & Hc2);
        [etransitivity; eassumption | assumption | | contradiction].
      destruct (IH st1 s2 w1 w2a H) as (st2' & w2' & Hl & Hc' & Hf' & Hp');
        [now rewrite Hf2 | assumption |].
      exists st2', w2'. rewrite (for_loop_next _ _ _ _ _ _ _ Hs2).
      split; [exact Hl|]. repeat split; (apply Hc' || congruence).
    + inversion H; subst.
      destruct (aggregate_step_again _ _ _ st2 _ _ _ w2 Hlen Hs Hsub Hcourse)
        as ([s2 | s2] & w2' & Hs2 & Hf2 & Hp2 & Hc2); [contradiction|].
      exists s2, w2'. rewrite (for_loop_break _ _ _ _ _ _ _ Hs2). auto.
Qed.

(** When the parquet round trip keeps the number of rows, a run of the
    aggregation loop that ended is repeated offline by any later run whose
    cache still holds the files the first one left: no request, no file
    written, the same months counted as empty, and the collected tables
    those of the first run as read back from the cache; where the round trip
    gives these tables back unchanged, the loop ends in the same state. *)
Theorem finished_run_is_repeated_offline fetch_list w st w1 w2 :
  (forall df, len (parquet_image df) = len df) ->
  aggregate_loop (rev fetch_list) initial_state w = (Ok st, w1) ->
  files w1 ⊆ files w2 ->
  exists st2 w3,
    aggregate_loop (rev fetch_list) initial_state w2 = (Ok st2, w3)
    /\ get_data_for_months fetch_list w2 = (pd_concat (all_tables st2), w3)
    /\ same_course st st2
    /\ posts w3 = posts w2 /\ files w3 = files w2
    /\ (Forall (fun t => parquet_image t = t) (all_tables st) -> st2 = st).
Proof.
  intros Hlen Hl Hsub.
  destruct (aggregate_loop_again _ _ initial_state _ _ _ w2 Hlen Hl Hsub
              (same_course_refl _)) as (st2 & w3 & Hl2 & Hcourse & Hf & Hp).
  exists st2, w3. split; [exact Hl2|].
  split; [unfold get_data_for_months, bind, lift; now rewrite Hl2|].
  split; [exact Hcourse|]. split; [exact Hp|]. split; [exact Hf|].
  intros Hkept. destruct Hcourse as (Hrows & Hmonths & Htables).
  destruct st as [tables rows months], st2 as [tables2 rows2 months2].
  cbn [all_tables consecutive_zero_rows consecutive_zero_months] in *. subst.
  f_equal. clear - Htables Hkept.
  induction Htables as [|t t2 l l2 Hback _ IH]; [reflexivity|].
  inversion Hkept as [|? ? Ht Hrest]; subst.
  rewrite (IH Hrest). destruct Hback as [-> | ->]; [reflexivity | now rewrite Ht].
Qed.

End RerunProperties.

(** ** The further properties on the sample environments *)

Lemma sample_table_well_formed n : well_formed (sample_table n).
Proof.
  unfold well_formed, sample_table. cbn [rows columns].
  induction n as [|n IH]; cbn [replicate]; constructor; [reflexivity | exact IH].
Defined.

Lemma get_data_table_success_witness :
  1 <= 1 <= 12
  /\ month_name 1 = Ok "January"
  /\ @server demo_env [] (payload_for "January" 2023) = Ok (mkResponse 200 "ten")
  /\ @read_html demo_env "ten" = Ok [sample_table 10]
  /\ monthrange_days 2023 1 = Ok 31
  /\ @to_datetime demo_env "2023-01-31" = Ok (Timestamp 2023 1 31)
  /\ exists df w',
       @get_data_table demo_env 1 2023 empty_world = (Ok (Some df), w')
       /\ len df = 10
       /\ forall r, In r (rows df) ->
                    cell_at month_year_label df r = Some (Timestamp 2023 1 31).
Proof.
  assert (Hm : 1 <= 1 <= 12) by lia.
  destruct (@get_data_table_success demo_env 1 2023 empty_world "January"
              (mkResponse 200 "ten") (sample_table 10) [] 31 (Timestamp 2023 1 31)
              Hm eq_refl eq_refl eq_refl eq_refl (sample_table_well_formed 10)
              eq_refl eq_refl)
    as (_ & df & w' & Hg & Hlen & _ & Hcells & _).
  split; [exact Hm|]. split; [reflexivity|]. split; [reflexivity|].
  split; [reflexivity|]. split; [reflexivity|]. split; [reflexivity|].
  exists df, w'. split; [exact Hg|]. split; [exact Hlen | exact Hcells].
Defined.

Lemma unread_date_raises_witness :
  1 <= 1 <= 12
  /\ month_name 1 = Ok "January"
  /\ @server demo_env [] (payload_for "January" 999) = Ok (mkResponse 200 "ten")
  /\ @read_html demo_env "ten" = Ok [sample_table 10]
  /\ monthrange_days 999 1 = Ok 31
  /\ @to_datetime demo_env "999-01-31"
     = Raise (ValueError "time data doesn't match format '%Y-%m-%d'")
  /\ fst (@load_or_fetch_data demo_env 1 999 fresh_world)
     = Raise (ValueError "time data doesn't match format '%Y-%m-%d'")
  /\ files (snd (@load_or_fetch_data demo_env 1 999 fresh_world)) = ∅
  /\ length (posts (snd (@load_or_fetch_data demo_env 1 999 fresh_world))) = 1%nat.
Proof.
  assert (Hm : 1 <= 1 <= 12) by lia.
  destruct (@unread_date_raises demo_env 1 999 fresh_world "January"
              (mkResponse 200 "ten") (sample_table 10) [] 31
              (ValueError "time data doesn't match format '%Y-%m-%d'")
              Hm eq_refl eq_refl eq_refl eq_refl eq_refl eq_refl)
    as (_ & Hmiss).
  split; [exact Hm|]. split; [reflexivity|]. split; [reflexivity|].
  split; [reflexivity|]. split; [reflexivity|]. split; [reflexivity|].
  rewrite (Hmiss (lookup_empty _) (fresh_world_no_cache_folder 1 999)).
  repeat split.
Defined.

Lemma get_data_table_bad_month_witness :
  12 < 13 <= 2 ^ 63 - 1
  /\ 2 ^ 63 - 1 < 2 ^ 64
  /\ @get_data_table demo_env 13 2023 empty_world
     = (Raise (IndexError "list index out of range"), empty_world)
  /\ @get_data_table demo_env (2 ^ 64) 2023 empty_world
     = (Raise (IndexError "cannot fit 'int' into an index-sized integer"), empty_world).
Proof.
  assert (H13 : 12 < 13 <= 2 ^ 63 - 1) by (change (2 ^ 63) with 9223372036854775808; lia).
  assert (Hbig : 2 ^ 63 - 1 < 2 ^ 64) by reflexivity.
  split; [exact H13|]. split; [exact Hbig|]. split.
  - destruct (@get_data_table_bad_month demo_env 13 2023 empty_world
                (or_intror (proj1 H13))) as (e & Hg & _ & He & _).
    rewrite Hg, (He (or_intror H13)). reflexivity.
  - destruct (@get_data_table_bad_month demo_env (2 ^ 64) 2023 empty_world
                (or_intror eq_refl)) as (e & Hg & _ & _ & He).
    rewrite Hg, (He (or_intror Hbig)). reflexivity.
Defined.

Lemma transport_failure_propagates_witness :
  1 <= 3 <= 12
  /\ month_name 3 = Ok "March"
  /\ @server offline_env [] (payload_for "March" 2023)
     = Raise (ConnectionError "Max retries exceeded")
  /\ fst (@get_data_table offline_env 3 2023 empty_world)
     = Raise (ConnectionError "Max retries exceeded")
  /\ fst (@get_data_for_months offline_env [(3, 2023)] empty_world)
     = Raise (ConnectionError "Max retries exceeded").
Proof.
  assert (Hm : 1 <= 3 <= 12) by lia.
  destruct (@transport_failure_propagates offline_env 3 2023 empty_world "March"
              (ConnectionError "Max retries exceeded") Hm eq_refl eq_refl)
    as (Hg & Hmiss).
  destruct (Hmiss (lookup_empty _) (not_elem_of_empty _)) as (_ & Hstep).
  split; [exact Hm|]. split; [reflexivity|]. split; [reflexivity|].
  split; [now rewrite Hg|].
  unfold get_data_for_months, aggregate_loop, bind. cbn [rev app for_loop].
  unfold bind. now rewrite Hstep.
Defined.

Lemma page_without_table_raises_witness :
  1 <= 3 <= 12
  /\ month_name 3 = Ok "March"
  /\ @server tableless_env [] (payload_for "March" 2023)
     = Ok (mkResponse 200 "maintenance")
  /\ @read_html tableless_env "maintenance" = Raise (ValueError "No tables found")
  /\ fst (@load_or_fetch_data tableless_env 3 2023 empty_world)
     = Raise (ValueError "No tables found")
  /\ files (snd (@load_or_fetch_data tableless_env 3 2023 empty_world)) = ∅.
Proof.
  assert (Hm : 1 <= 3 <= 12) by lia.
  destruct (@page_without_table_raises tableless_env 3 2023 empty_world "March"
              (mkResponse 200 "maintenance") (ValueError "No tables found")
              Hm eq_refl eq_refl eq_refl eq_refl)
    as (_ & Hmiss).
  split; [exact Hm|]. split; [reflexivity|]. split; [reflexivity|].
  split; [reflexivity|].
  rewrite (Hmiss (lookup_empty _) (not_elem_of_empty _)). split; reflexivity.
Defined.

Lemma get_data_table_sends_at_most_one_request_witness :
  let run := @get_data_table demo_env 6 2023 empty_world in
  run = (Ok None, snd run)
  /\ exists req, posts (snd run) = [req].
Proof.
  intros run.
  assert (Hrun : run = (Ok None, snd run)) by (vm_compute; reflexivity).
  split; [exact Hrun|].
  destruct (@get_data_table_sends_at_most_one_request demo_env 6 2023 empty_world
              (Ok None) (snd run) Hrun) as (_ & _ & _ & _ & Hone).
  exact (Hone None eq_refl).
Defined.

Lemma distinct_months_have_distinct_cache_files_witness :
  (1, 2023) <> (11, 2023) /\ cache_path 1 2023 <> cache_path 11 2023.
Proof.
  assert (Hne : (1, 2023) <> (11, 2023)) by discriminate.
  split; [exact Hne|]. exact (distinct_months_have_distinct_cache_files 1 2023 11 2023 Hne).
Defined.

Lemma cached_month_is_not_fetched_witness :
  files cached_world !! cache_path 1 2023 = Some (sample_table 10)
  /\ month_name 1 = Ok "January"
  /\ fst (@load_or_fetch_data offline_env 1 2023 cached_world)
     = Ok (Some (sample_table 10))
  /\ posts (snd (@load_or_fetch_data offline_env 1 2023 cached_world)) = [].
Proof.
  assert (Hf : files cached_world !! cache_path 1 2023 = Some (sample_table 10))
    by (vm_compute; reflexivity).
  destruct (@cached_month_is_not_fetched offline_env 1 2023 cached_world
              (sample_table 10) "January" Hf eq_refl) as (Hl & _ & Hp & _).
  split; [exact Hf|]. split; [reflexivity|]. rewrite Hl. split; [reflexivity | exact Hp].
Defined.

Lemma refused_fetch_is_retried_witness :
  1 <= 6 <= 12
  /\ month_name 6 = Ok "June"
  /\ exists w1 w2,
       @load_or_fetch_data demo_env 6 2023 empty_world = (Ok None, w1)
       /\ @load_or_fetch_data demo_env 6 2023 w1 = (Ok None, w2)
       /\ posts w2 = [payload_for "June" 2023; payload_for "June" 2023]
       /\ files w2 = ∅.
Proof.
  assert (Hm : 1 <= 6 <= 12) by lia.
  assert (Hc : 404 <> 200) by lia.
  split; [exact Hm|]. split; [reflexivity|].
  exact (@refused_fetch_is_retried demo_env 6 2023 empty_world "June"
           (mkResponse 404 "") (mkResponse 404 "") Hm eq_refl
           (lookup_empty _) (not_elem_of_empty _) eq_refl Hc eq_refl Hc).
Defined.

Lemma plan_membership_witness :
  2022 <= 2023
  /\ exists fetch_list w',
       @create_fetch_list demo_env 2022 2023 empty_world = (Ok fetch_list, w')
       /\ In (12, 2022) fetch_list /\ In (3, 2023) fetch_list
       /\ ~ In (4, 2023) fetch_list.
Proof.
  assert (Hr : 2022 <= 2023) by lia. split; [exact Hr|].
  destruct (@plan_membership demo_env 2022 2023 empty_world Hr)
    as (fetch_list & w' & Hrun & Hin).
  exists fetch_list, w'. split; [exact Hrun|]. cbn in Hin.
  split; [apply Hin; lia|]. split; [apply Hin; lia|].
  intros H. apply Hin in H. lia.
Defined.

Lemma plan_is_ascending_without_repeats_witness :
  2022 <= 2023
  /\ exists fetch_list w',
       @create_fetch_list demo_env 2022 2023 empty_world = (Ok fetch_list, w')
       /\ StronglySorted earlier_than fetch_list
       /\ List.NoDup fetch_list.
Proof.
  assert (Hr : 2022 <= 2023) by lia. split; [exact Hr|].
  exact (@plan_is_ascending_without_repeats demo_env 2022 2023 empty_world Hr).
Defined.

Lemma plan_size_witness :
  2021 <= 2023
  /\ exists fetch_list w',
       @create_fetch_list demo_env 2021 2023 empty_world = (Ok fetch_list, w')
       /\ Z.of_nat (length fetch_list) = 27.
Proof.
  assert (Hr : 2021 <= 2023) by lia. split; [exact Hr|].
  destruct (@plan_size demo_env 2021 2023 empty_world Hr)
    as (fetch_list & w' & Hrun & _ & Hlen).
  exists fetch_list, w'. split; [exact Hrun|]. cbn in Hlen. rewrite Hlen; lia.
Defined.

Lemma plan_is_empty_only_for_future_ranges_witness :
  2023 <= 2024
  /\ 1 <= dt_month (@utcnow demo_env 1)
  /\ exists fetch_list w',
       @create_fetch_list demo_env 2023 2024 empty_world = (Ok fetch_list, w')
       /\ fetch_list <> [].
Proof.
  assert (Hr : 2023 <= 2024) by lia.
  assert (Hcm : 1 <= dt_month (@utcnow demo_env 1)) by (cbn; lia).
  split; [exact Hr|]. split; [exact Hcm|].
  destruct (@plan_is_empty_only_for_future_ranges demo_env 2023 2024 empty_world Hr Hcm)
    as (fetch_list & w' & Hrun & Hiff).
  exists fetch_list, w'. split; [exact Hrun|].
  intros Hnil. apply Hiff in Hnil. cbn in Hnil. lia.
Defined.

Lemma create_fetch_list_only_reads_the_clock_witness :
  let run := @create_fetch_list demo_env 2022 2023 second_run_world in
  let rejected := @create_fetch_list demo_env 2023 2022 second_run_world in
  files (snd run) = files second_run_world
  /\ posts (snd run) = []
  /\ (exists fetch_list, fst run = Ok fetch_list)
  /\ ticks (snd run) = 2%nat
  /\ ticks (snd rejected) = 0%nat.
Proof.
  intros run rejected.
  destruct (@create_fetch_list_only_reads_the_clock demo_env 2022 2023 second_run_world
              (fst run) (snd run) (surjective_pairing run))
    as (Hf & _ & Hp & [(Hr & _) | (_ & Hplan & Ht)]); [lia|].
  destruct (@create_fetch_list_only_reads_the_clock demo_env 2023 2022 second_run_world
              (fst rejected) (snd rejected) (surjective_pairing rejected))
    as (_ & _ & _ & [(_ & _ & Ht0 & _) | (Hr & _)]); [|lia].
  split; [exact Hf|]. split; [exact Hp|]. split; [exact Hplan|].
  split; [exact Ht | exact Ht0].
Defined.

Lemma result_has_rows_witness :
  let run := @get_data_for_months demo_env [(1, 2023); (2, 2023)] fresh_world in
  exists result_table,
    run = (Ok result_table, snd run) /\ 0 < len result_table.
Proof.
  intros run.
  set (january := set_column month_year_label (Timestamp 2023 1 31) (sample_table 10)).
  assert (Hrun : run = (Ok january, snd run)) by (vm_compute; reflexivity).
  exists january. split; [exact Hrun|].
  destruct (@result_has_rows demo_env [(1, 2023); (2, 2023)] fresh_world january
              (snd run) Hrun) as (st & _ & _ & _ & _ & _ & Hlen).
  exact Hlen.
Defined.

Lemma cached_plan_entry (w : World) (entries : list (Z * Z)) (tables : list DataFrame) :
  Forall2 (fun entry df => (1 <=? fst entry) && (fst entry <=? 12) = true
                           /\ files w !! cache_path (fst entry) (snd entry) = Some df)
          entries tables ->
  forall entry, In entry entries -> 1 <= fst entry <= 12 /\ exists df, cached w entry df.
Proof.
  induction 1 as [|entry df entries tables (Hm & Hf) _ IH]; intros e []; subst; auto.
  apply andb_true_iff in Hm as [H1 H2]. apply Z.leb_le in H1, H2.
  split; [lia|]. now exists df.
Defined.

Lemma cached_plan_runs_offline_witness :
  let plan := [(1, 2023); (2, 2023); (3, 2023)] in
  (forall entry, In entry plan ->
     1 <= fst entry <= 12 /\ exists df, cached cached_world entry df)
  /\ exists r w',
       @get_data_for_months offline_env plan cached_world = (r, w')
       /\ posts w' = [] /\ files w' = files cached_world.
Proof.
  intros plan.
  assert (H : forall entry, In entry plan ->
                1 <= fst entry <= 12 /\ exists df, cached cached_world entry df).
  { apply (cached_plan_entry cached_world plan
             [sample_table 10; sample_table 10; sample_table 0]).
    repeat constructor; vm_compute; reflexivity. }
  split; [exact H|].
  destruct (@cached_plan_runs_offline offline_env plan cached_world H)
    as (r & w' & Hrun & Hp & Hf & _).
  exists r, w'. auto.
Defined.

Lemma cached_tables_are_stacked_latest_first_witness :
  let january := mkDataFrame [["Bank"]] [[Str "Sonali"]] in
  let february := mkDataFrame [["Bank"]] [[Str "Janata"]; [Str "Agrani"]] in
  let w := mkWorld {[ cache_path 1 2023 := january; cache_path 2 2023 := february ]}
                   {[ DATA_FOLDER ]} [] [] 0 in
  Forall2 (fun entry df => 1 <= fst entry <= 12 /\ cached w entry df /\ 0 < len df)
          [(1, 2023); (2, 2023)] [january; february]
  /\ fst (@get_data_for_months offline_env [(1, 2023); (2, 2023)] w)
     = Ok (mkDataFrame [["Bank"]] [[Str "Janata"]; [Str "Agrani"]; [Str "Sonali"]]).
Proof.
  intros january february w.
  assert (H : Forall2 (fun entry df => 1 <= fst entry <= 12 /\ cached w entry df
                                       /\ 0 < len df)
                      [(1, 2023); (2, 2023)] [january; february]).
  { repeat constructor; cbn [fst]; try lia; vm_compute; reflexivity. }
  split; [exact H|].
  destruct (@cached_tables_are_stacked_latest_first offline_env _ _ w H)
    as (w' & Hrun & _).
  rewrite Hrun. reflexivity.
Defined.

Lemma barren_plan_entry (w : World) (entries : list (Z * Z)) (tables : list DataFrame) :
  Forall2 (fun entry df => (1 <=? fst entry) && (fst entry <=? 12) = true
                           /\ files w !! cache_path (fst entry) (snd entry) = Some df
                           /\ len df = 0)
          entries tables ->
  forall entry, In entry entries ->
    1 <= fst entry <= 12 /\ exists df, cached w entry df /\ len df = 0.
Proof.
  induction 1 as [|entry df entries tables (Hm & Hf & Hz) _ IH]; intros e []; subst; auto.
  apply andb_true_iff in Hm as [H1 H2]. apply Z.leb_le in H1, H2.
  split; [lia|]. now exists df.
Defined.

Lemma five_barren_months_end_the_run_witness :
  let five := [(1, 2022); (2, 2022); (3, 2022); (4, 2022); (5, 2022)] in
  (forall entry, In entry five ->
     1 <= fst entry <= 12 /\ exists df, cached barren_world entry df /\ len df = 0)
  /\ exists w',
       @get_data_for_months offline_env ((12, 2021) :: five) barren_world
         = (Raise (ValueError "No objects to concatenate"), w')
       /\ posts w' = [] /\ last (stdout w') = Some "Data fetch aborted.".
Proof.
  intros five.
  assert (H : forall entry, In entry five ->
                1 <= fst entry <= 12
                /\ exists df, cached barren_world entry df /\ len df = 0).
  { apply (barren_plan_entry barren_world five (replicate 5 (sample_table 0))).
    repeat constructor; vm_compute; reflexivity. }
  split; [exact H|].
  destruct (@five_barren_months_end_the_run offline_env [(12, 2021)] five barren_world
              eq_refl H) as (w' & Hrun & _ & Hp & _ & Hlast).
  exists w'. auto.
Defined.

Lemma main_does_not_catch_aggregation_errors_witness :
  let plan := [(1, 2023); (2, 2023); (3, 2023); (4, 2023); (5, 2023); (6, 2023)] in
  let planned := @create_fetch_list june_env 2023 2023 (with_data_folder empty_world) in
  let err := AttributeError "'NoneType' object has no attribute 'shape'" in
  fst planned = Ok plan
  /\ fst (@get_data_for_months june_env plan (snd planned)) = Raise err
  /\ fst (@main june_env 2023 2023 empty_world) = Raise err
  /\ files (snd (@main june_env 2023 2023 empty_world)) = ∅.
Proof.
  intros plan planned err.
  assert (Hp : planned = (Ok plan, snd planned)) by (vm_compute; reflexivity).
  assert (Hg : @get_data_for_months june_env plan (snd planned)
               = (Raise err, snd (@get_data_for_months june_env plan (snd planned))))
    by (vm_compute; reflexivity).
  destruct (@main_does_not_catch_aggregation_errors june_env 2023 2023 empty_world
              plan (snd planned) err _ Hp ltac:(discriminate) Hg) as (Hmain & _).
  split; [now rewrite Hp|]. split; [now rewrite Hg|]. rewrite Hmain.
  split; [reflexivity | vm_compute; reflexivity].
Defined.

Lemma fresh_output_takes_the_plain_name_witness :
  let plan := [(1, 2023); (2, 2023); (3, 2023)] in
  let planned := @create_fetch_list demo_env 2023 2023 (with_data_folder empty_world) in
  let fetched := @get_data_for_months demo_env plan (snd planned) in
  let january := set_column month_year_label (Timestamp 2023 1 31) (sample_table 10) in
  fst planned = Ok plan
  /\ fst fetched = Ok january
  /\ files (snd fetched) !! file_name_combined = None
  /\ files (snd (@main demo_env 2023 2023 empty_world)) !! file_name_combined
     = Some (demo_parquet_image january)
  /\ ticks (snd (@main demo_env 2023 2023 empty_world)) = 2%nat.
Proof.
  intros plan planned fetched january.
  assert (Hp : planned = (Ok plan, snd planned)) by (vm_compute; reflexivity).
  assert (Hg : fetched = (Ok january, snd fetched)) by (vm_compute; reflexivity).
  assert (Hf : files (snd fetched) !! file_name_combined = None)
    by (vm_compute; reflexivity).
  assert (Hd : file_name_combined ∉ dirs (snd fetched)).
  { apply (bool_decide_eq_false_1 (file_name_combined ∈ dirs (snd fetched))).
    vm_compute. reflexivity. }
  pose proof (@fresh_output_takes_the_plain_name demo_env 2023 2023 empty_world
                plan (snd planned) january (snd fetched) Hp ltac:(discriminate)
                Hg Hf Hd) as Hmain.
  split; [now rewrite Hp|]. split; [now rewrite Hg|]. split; [exact Hf|].
  rewrite Hmain. cbn [snd files ticks]. split; [apply lookup_insert_eq|].
  vm_compute. reflexivity.
Defined.

Lemma main_confines_its_writes_witness :
  let run := @main demo_env 2023 2023 second_run_world in
  files (snd run) !! "notes.txt" = None
  /\ (DATA_FOLDER ∈ dirs (snd run) \/ is_Some (files second_run_world !! DATA_FOLDER)).
Proof.
  intros run.
  destruct (@main_confines_its_writes demo_env 2023 2023 second_run_world
              (fst run) (snd run) (surjective_pairing run)) as (Hfiles & _ & Hfolder).
  split; [|exact Hfolder].
  rewrite (Hfiles "notes.txt").
  - vm_compute. reflexivity.
  - intros [name Hn]. discriminate Hn.
  - intros suffix Hs. discriminate Hs.
Defined.

Lemma demo_parquet_image_len df : len (demo_parquet_image df) = len df.
Proof. unfold demo_parquet_image. now destruct (is_multiindex (columns df)). Qed.

Lemma finished_run_is_repeated_offline_witness :
  let plan := [(1, 2023); (2, 2023); (3, 2023)] in
  let first := @get_data_for_months demo_env plan fresh_world in
  let again := @get_data_for_months demo_env plan (snd first) in
  let january := set_column month_year_label (Timestamp 2023 1 31) (sample_table 10) in
  (forall df, len (@parquet_image demo_env df) = len df)
  /\ fst first = pd_concat [january]
  /\ (exists st2,
        fst again = pd_concat (all_tables st2)
        /\ @same_course demo_env (mkLoopState [january] 0 []) st2)
  /\ posts (snd again) = posts (snd first)
  /\ files (snd again) = files (snd first).
Proof.
  intros plan first again january.
  assert (Hl : @aggregate_loop demo_env (rev plan) initial_state fresh_world
               = (Ok (mkLoopState [january] 0 []), snd first))
    by (vm_compute; reflexivity).
  split; [exact demo_parquet_image_len|]. split; [vm_compute; reflexivity|].
  destruct (@finished_run_is_repeated_offline demo_env plan fresh_world _ _ (snd first)
              demo_parquet_image_len Hl (reflexivity _))
    as (st2 & w3 & _ & Hrun & Hcourse & Hp & Hf & _).
  fold again in Hrun. rewrite Hrun. cbn [fst snd].
  split; [exists st2; split; [reflexivity | exact Hcourse]|]. split; assumption.
Defined.
